(** * GILab home page: the data access layer of [server/crud.py]

    A shallow embedding of the CRUD functions of [server/crud.py] and of the
    request schemas of [server/schemas.py] they consume, with the properties
    the specification states about them.

    Modelling choices, all read off the sources:

    - a Python value stored in a column or carried by a request is a
      [value] (None, bool, int, str; a datetime is the integer of its
      instant);
    - a request object (a pydantic model of [schemas.py]) is a record with
      one [field] per declared attribute, which remembers whether the
      attribute was assigned: this is what [.dict(exclude_unset=True)]
      observes.  Schema validation makes the attributes without a default
      assigned; the embedding does not assume it, so every theorem also
      covers objects built without validation.  Only an attribute that has
      no default and that the code reads directly ([user.email],
      [author.name]) is a plain component: the call needs it;
    - a dict is a [gmap string value]; a mapped object (a row) is the map
      of its column attributes, an absent key standing for a NULL column;
    - the database session is passed explicitly: a [Session] holds one list
      of rows per mapped class, in storage order;
    - [db.add]/[db.flush]/[db.commit]/[db.refresh] persist an object as it
      stands and read it back unchanged; an UPDATE or DELETE issued for an
      object addresses the rows by the object's primary key;
    - what [models.py] and the storage engine decide (generated ids and
      column defaults, the comparison behind ORDER BY) is a parameter, the
      class [Storage]. *)

From stdpp Require Import gmap strings list sorting pretty lexico.
From Stdlib Require Import Ascii.

#[local] Open Scope string_scope.
#[local] Open Scope Z_scope.
#[local] Open Scope list_scope.

(** ** Python values *)

Inductive value :=
  | VNone
  | VBool (b : bool)
  | VInt (z : Z)
  | VStr (s : string).

#[export] Instance value_eq_dec : EqDecision value.
Proof. solve_decision. Defined.

(** A dict with string keys; also the attribute map of a mapped object. *)
Abbreviation row := (gmap string value).

(** Attribute read on a mapped object: a column never written is NULL. *)
Definition getattr (r : row) (k : string) : value := default VNone (r !! k).

(** [for key, value in d.items(): setattr(obj, key, value)] *)
Definition setattrs (d : row) (obj : row) : row :=
  map_fold (λ key v acc, <[key := v]> acc) obj d.

(** [d.pop(k, dflt)]: the value popped and the dict that remains. *)
Definition pop (k : string) (dflt : value) (d : row) : value * row :=
  (default dflt (d !! k), delete k d).

(** ** Request objects *)

Inductive field (A : Type) :=
  | Unset
  | Given (a : A).
Arguments Unset {A}.
Arguments Given {A} a.

Class ToValue (A : Type) := to_value : A → value.
#[export] Instance Z_to_value : ToValue Z := VInt.
#[export] Instance string_to_value : ToValue string := VStr.
#[export] Instance bool_to_value : ToValue bool := VBool.
#[export] Instance option_to_value `{ToValue A} : ToValue (option A) :=
  λ o, match o with Some a => to_value a | None => VNone end.

(** The value carried by a field, when it was assigned. *)
Definition assigned `{ToValue A} (f : field A) : option value :=
  match f with Unset => None | Given a => Some (to_value a) end.

(** The attribute as read with [obj.attr]: the class default when unset. *)
Definition read `{ToValue A} (dflt : value) (f : field A) : value :=
  default dflt (assigned f).

(** [.dict(exclude_unset=True)] over the declared attributes, in order. *)
Definition dict_of (items : list (string * option value)) : row :=
  list_to_map (omap (λ kv, pair kv.1 <$> kv.2) items).

Module UserCreate.
(** [UserBase] and [UserCreate]: four required strings, read by attribute. *)
Record t := {
  email : string;
  firstName : string;
  lastName : string;
  password : string;
}.
End UserCreate.

Module PublicationCreate.
Record t := {
  title : field string;
  journal : field (option string);
  conference : field (option string);
  year : field Z;
  type : field string;
  abstract : field string;
  pdfUrl : field (option string);
  imageUrl : field (option string);
  order : field (option Z);
}.
Definition items (p : t) : list (string * option value) :=
  [ ("title", assigned (title p)); ("journal", assigned (journal p));
    ("conference", assigned (conference p)); ("year", assigned (year p));
    ("type", assigned (type p)); ("abstract", assigned (abstract p));
    ("pdfUrl", assigned (pdfUrl p)); ("imageUrl", assigned (imageUrl p));
    ("order", assigned (order p)) ].
Definition dict_exclude_unset (p : t) : row := dict_of (items p).
Definition empty : t :=
  {| title := Unset; journal := Unset; conference := Unset; year := Unset;
     type := Unset; abstract := Unset; pdfUrl := Unset; imageUrl := Unset;
     order := Unset |}.
End PublicationCreate.

Module AuthorCreate.
Record t := {
  name : string;
  homepage : field (option string);
  order : field (option Z);
}.
Definition items (a : t) : list (string * option value) :=
  [ ("name", Some (VStr (name a))); ("homepage", assigned (homepage a));
    ("order", assigned (order a)) ].
Definition dict_exclude_unset (a : t) : row := dict_of (items a).
End AuthorCreate.

Module ResearchProjectCreate.
Record t := {
  title : field string;
  description : field string;
  category : field string;
  date : field string;
  leadResearcher : field string;
  imageUrl : field string;
  order : field (option Z);
}.
Definition items (p : t) : list (string * option value) :=
  [ ("title", assigned (title p)); ("description", assigned (description p));
    ("category", assigned (category p)); ("date", assigned (date p));
    ("leadResearcher", assigned (leadResearcher p));
    ("imageUrl", assigned (imageUrl p)); ("order", assigned (order p)) ].
Definition dict_exclude_unset (p : t) : row := dict_of (items p).
End ResearchProjectCreate.

Module NewsCreate.
Record t := {
  title : field string;
  content : field string;
  summary : field (option string);
  imageUrl : field (option string);
}.
Definition items (n : t) : list (string * option value) :=
  [ ("title", assigned (title n)); ("content", assigned (content n));
    ("summary", assigned (summary n)); ("imageUrl", assigned (imageUrl n)) ].
Definition dict_exclude_unset (n : t) : row := dict_of (items n).
Definition empty : t :=
  {| title := Unset; content := Unset; summary := Unset; imageUrl := Unset |}.
End NewsCreate.

Module MemberCreate.
Record t := {
  name : field string;
  degree : field string;
  email : field (option string);
  imageUrl : field (option string);
  homepage : field (option string);
  joinedAt : field string;
  status : field (option string);
  bio : field (option string);
  researchInterests : field (option string);
}.
Definition items (m : t) : list (string * option value) :=
  [ ("name", assigned (name m)); ("degree", assigned (degree m));
    ("email", assigned (email m)); ("imageUrl", assigned (imageUrl m));
    ("homepage", assigned (homepage m)); ("joinedAt", assigned (joinedAt m));
    ("status", assigned (status m)); ("bio", assigned (bio m));
    ("researchInterests", assigned (researchInterests m)) ].
Definition dict_exclude_unset (m : t) : row := dict_of (items m).
End MemberCreate.

Module MemberUpdate.
Record t := {
  name : field (option string);
  degree : field (option string);
  email : field (option string);
  imageUrl : field (option string);
  homepage : field (option string);
  joinedAt : field (option string);
  status : field (option string);
  bio : field (option string);
  researchInterests : field (option string);
}.
Definition items (m : t) : list (string * option value) :=
  [ ("name", assigned (name m)); ("degree", assigned (degree m));
    ("email", assigned (email m)); ("imageUrl", assigned (imageUrl m));
    ("homepage", assigned (homepage m)); ("joinedAt", assigned (joinedAt m));
    ("status", assigned (status m)); ("bio", assigned (bio m));
    ("researchInterests", assigned (researchInterests m)) ].
Definition dict_exclude_unset (m : t) : row := dict_of (items m).
Definition empty : t :=
  {| name := Unset; degree := Unset; email := Unset; imageUrl := Unset;
     homepage := Unset; joinedAt := Unset; status := Unset; bio := Unset;
     researchInterests := Unset |}.
End MemberUpdate.

Module ResearchAreaCreate.
Record t := {
  name : field string;
  description : field (option string);
  parentId : field (option string);
  imageUrl : field (option string);
  order : field (option Z);
  isActive : field (option bool);
}.
Definition items (a : t) : list (string * option value) :=
  [ ("name", assigned (name a)); ("description", assigned (description a));
    ("parentId", assigned (parentId a)); ("imageUrl", assigned (imageUrl a));
    ("order", assigned (order a)); ("isActive", assigned (isActive a)) ].
Definition dict_exclude_unset (a : t) : row := dict_of (items a).
Definition empty : t :=
  {| name := Unset; description := Unset; parentId := Unset;
     imageUrl := Unset; order := Unset; isActive := Unset |}.
End ResearchAreaCreate.

Module LabInfoCreate.
Record t := {
  labName : field string;
  principalInvestigator : field string;
  piTitle : field string;
  piEmail : field (option string);
  piPhone : field (option string);
  piPhoto : field (option string);
  piBio : field (option string);
  description : field (option string);
  address : field string;
  latitude : field (option string);
  longitude : field (option string);
  building : field (option string);
  room : field (option string);
  university : field string;
  department : field string;
  website : field (option string);
  establishedYear : field (option string);
  researchFocus : field (option string);
  contactEmail : field string;
  contactPhone : field (option string);
  officeHours : field (option string);
}.
Definition items (l : t) : list (string * option value) :=
  [ ("labName", assigned (labName l));
    ("principalInvestigator", assigned (principalInvestigator l));
    ("piTitle", assigned (piTitle l)); ("piEmail", assigned (piEmail l));
    ("piPhone", assigned (piPhone l)); ("piPhoto", assigned (piPhoto l));
    ("piBio", assigned (piBio l)); ("description", assigned (description l));
    ("address", assigned (address l)); ("latitude", assigned (latitude l));
    ("longitude", assigned (longitude l)); ("building", assigned (building l));
    ("room", assigned (room l)); ("university", assigned (university l));
    ("department", assigned (department l)); ("website", assigned (website l));
    ("establishedYear", assigned (establishedYear l));
    ("researchFocus", assigned (researchFocus l));
    ("contactEmail", assigned (contactEmail l));
    ("contactPhone", assigned (contactPhone l));
    ("officeHours", assigned (officeHours l)) ].
Definition dict_exclude_unset (l : t) : row := dict_of (items l).
Definition empty : t :=
  {| labName := Unset; principalInvestigator := Unset; piTitle := Unset;
     piEmail := Unset; piPhone := Unset; piPhoto := Unset; piBio := Unset;
     description := Unset; address := Unset; latitude := Unset;
     longitude := Unset; building := Unset; room := Unset; university := Unset;
     department := Unset; website := Unset; establishedYear := Unset;
     researchFocus := Unset; contactEmail := Unset; contactPhone := Unset;
     officeHours := Unset |}.
End LabInfoCreate.

(** ** The session and the storage engine *)

(** The mapped classes of [models]. *)
Inductive model :=
  | User | Publication | Author | ResearchProject
  | News | Member | ResearchArea | LabInfo.

#[export] Instance model_eq_dec : EqDecision model.
Proof. solve_decision. Defined.

(** One table per mapped class, rows in storage order. *)
Record Session := {
  t_User : list row;
  t_Publication : list row;
  t_Author : list row;
  t_ResearchProject : list row;
  t_News : list row;
  t_Member : list row;
  t_ResearchArea : list row;
  t_LabInfo : list row;
}.

(** [db.query(models.M)] before any filter or ordering. *)
Definition query (m : model) (db : Session) : list row :=
  match m with
  | User => t_User db
  | Publication => t_Publication db
  | Author => t_Author db
  | ResearchProject => t_ResearchProject db
  | News => t_News db
  | Member => t_Member db
  | ResearchArea => t_ResearchArea db
  | LabInfo => t_LabInfo db
  end.

(** The session with the table of [m] replaced. *)
Definition store (m : model) (rows : list row) (db : Session) : Session :=
  let pick m' := if decide (m' = m) then rows else query m' db in
  {| t_User := pick User; t_Publication := pick Publication;
     t_Author := pick Author; t_ResearchProject := pick ResearchProject;
     t_News := pick News; t_Member := pick Member;
     t_ResearchArea := pick ResearchArea; t_LabInfo := pick LabInfo |}.

(** A database with no rows. *)
Definition empty_session : Session :=
  {| t_User := []; t_Publication := []; t_Author := []; t_ResearchProject := [];
     t_News := []; t_Member := []; t_ResearchArea := []; t_LabInfo := [] |}.

(** What the sources leave to [models.py] and to the storage engine:
    the comparison ORDER BY sorts a column with (collation and the place
    of NULL included), a total preorder, and the attributes a mapped class
    supplies for the columns a constructor call leaves out (the generated
    id, timestamps, declared defaults). *)
Class Storage := {
  col_le : relation value;
  col_le_dec :: RelDecision col_le;
  col_le_total :: Total col_le;
  col_le_trans :: Transitive col_le;
  column_defaults : model → Session → row;
}.

Section Orm.
Context {engine : Storage}.

(** [.filter(M.col == v)] *)
Definition filter_eq (col : string) (v : value) (rows : list row) : list row :=
  filter (λ r, getattr r col = v) rows.

(** [.first()] *)
Definition first (rows : list row) : option row := head rows.

(** [.order_by(asc(M.col))] and [.order_by(desc(M.col))] *)
Definition asc_le (col : string) : relation row :=
  λ r1 r2, col_le (getattr r1 col) (getattr r2 col).
Definition desc_le (col : string) : relation row :=
  λ r1 r2, col_le (getattr r2 col) (getattr r1 col).
#[export] Instance asc_le_dec col : RelDecision (asc_le col).
Proof. intros r1 r2. unfold asc_le. apply _. Defined.
#[export] Instance desc_le_dec col : RelDecision (desc_le col).
Proof. intros r1 r2. unfold desc_le. apply _. Defined.
Definition order_by_asc (col : string) (rows : list row) : list row :=
  merge_sort (asc_le col) rows.
Definition order_by_desc (col : string) (rows : list row) : list row :=
  merge_sort (desc_le col) rows.

(** [.order_by(k1, k2)]: rows compare by [k1], and by [k2] where [k1]
    ties them. *)
Definition then_le (R1 R2 : relation row) : relation row :=
  λ r1 r2, R1 r1 r2 ∧ (R1 r2 r1 → R2 r1 r2).
#[export] Instance then_le_dec (R1 R2 : relation row)
  `{!RelDecision R1, !RelDecision R2} : RelDecision (then_le R1 R2).
Proof. intros r1 r2. unfold then_le. apply _. Defined.

(** [.limit(n)], for the non-negative [n] every engine accepts. *)
Definition limit (n : nat) (rows : list row) : list row := take n rows.

(** [obj = models.M(...); db.add(obj)] for a constructor call with the
    keyword arguments [kw], followed by the flush that writes the object:
    the object as persisted, and the session holding it. *)
Definition add (m : model) (kw : row) (db : Session) : row * Session :=
  let obj := kw ∪ column_defaults m db in
  (obj, store m (query m db ++ [obj]) db).

(** The UPDATE a flush issues for a changed object with primary key [id]. *)
Definition update (m : model) (id : value) (f : row → row) (db : Session) : Session :=
  store m ((λ r, if decide (getattr r "id" = id) then f r else r) <$> query m db) db.

(** [db.delete(obj)], the DELETE for the primary key [id]. *)
Definition delete_pk (m : model) (id : value) (db : Session) : Session :=
  store m (filter (λ r, getattr r "id" ≠ id) (query m db)) db.

End Orm.

(** ** Strings: [str.lower], [str.startswith]

    Strings are byte strings; [lower] folds the ASCII capitals, which is
    what [str.lower] does to every string that can reach one of the ASCII
    literals compared against below. *)

Definition lower_ascii (c : ascii) : ascii :=
  let n := N_of_ascii c in
  if ((65 <=? n) && (n <=? 90))%N then ascii_of_N (n + 32) else c.

Fixpoint lower (s : string) : string :=
  match s with
  | EmptyString => EmptyString
  | String c s' => String (lower_ascii c) (lower s')
  end.

Definition startswith (s p : string) : bool := String.prefix p s.

(** [v or ''], the empty string standing in for None, for the value of a
    string column (a str or None). *)
Definition or_empty (v : value) : string :=
  match v with VStr s => s | _ => EmptyString end.

(** A dict literal, and the keyword arguments of a constructor call. *)
Definition kwargs (l : list (string * value)) : row := list_to_map l.

(** ** [crud.py] *)

Section Crud.
Context {engine : Storage}.

(** *** User CRUD *)

Definition get_user_by_email (db : Session) (email : string) : option row :=
  first (filter_eq "email" (VStr email) (query User db)).

Definition create_user (db : Session) (user : UserCreate.t) (hashed_password : string)
  : row * Session :=
  add User
    (kwargs [ ("email", VStr (UserCreate.email user));
              ("hashed_password", VStr hashed_password);
              ("firstName", VStr (UserCreate.firstName user));
              ("lastName", VStr (UserCreate.lastName user));
              ("isApproved", VBool false);
              ("isAdmin", VBool false) ])
    db.

Definition get_all_pending_users (db : Session) : list row :=
  filter_eq "isApproved" (VBool false) (query User db).

Definition approve_user (db : Session) (user_id : string) : option row * Session :=
  match first (filter_eq "id" (VStr user_id) (query User db)) with
  | Some db_user =>
      let set_approved := <["isApproved" := VBool true]> in
      (Some (set_approved db_user),
       update User (getattr db_user "id") set_approved db)
  | None => (None, db)
  end.

(** *** Publication CRUD *)

Definition get_all_publications_with_authors (db : Session) : list row :=
  order_by_asc "displayOrder" (query Publication db).

Definition get_publications_by_year (db : Session) (year : string) : list row :=
  order_by_asc "displayOrder" (filter_eq "year" (VStr year) (query Publication db)).

(** The caller chooses [n]; a call that omits it gets 5. *)
Definition get_recent_publications (db : Session) (n : nat) : list row :=
  limit n
    (merge_sort (then_le (desc_le "year") (asc_le "displayOrder"))
       (query Publication db)).

(** The body of the loop over [enumerate(authors_data)]. *)
Definition add_author (publication_id : value) (db : Session)
    (idx : nat) (author_data : AuthorCreate.t) : Session :=
  let a_payload := AuthorCreate.dict_exclude_unset author_data in
  let '(a_display_order, a_payload) := pop "order" (VInt (Z.of_nat idx)) a_payload in
  let a_payload := <["displayOrder" := a_display_order]> a_payload in
  (add Author (<["publicationId" := publication_id]> a_payload) db).2.

Fixpoint add_authors (publication_id : value) (db : Session)
    (idx : nat) (authors_data : list AuthorCreate.t) : Session :=
  match authors_data with
  | [] => db
  | author_data :: rest =>
      add_authors publication_id (add_author publication_id db idx author_data)
        (S idx) rest
  end.

Definition create_publication (db : Session) (publication : PublicationCreate.t)
    (author_id : string) (authors_data : list AuthorCreate.t) : row * Session :=
  let pub_payload := PublicationCreate.dict_exclude_unset publication in
  let '(pub_display_order, pub_payload) := pop "order" (VInt 0) pub_payload in
  let pub_payload := <["displayOrder" := pub_display_order]> pub_payload in
  let '(db_publication, db) :=
    add Publication (<["authorId" := VStr author_id]> pub_payload) db in
  (db_publication, add_authors (getattr db_publication "id") db 0 authors_data).

Definition update_publication (db : Session) (publication_id : string)
    (publication : PublicationCreate.t) : option row * Session :=
  match first (filter_eq "id" (VStr publication_id) (query Publication db)) with
  | None => (None, db)
  | Some db_publication =>
      let updates := PublicationCreate.dict_exclude_unset publication in
      let updates :=
        match updates !! "order" with
        | Some v => <["displayOrder" := v]> (delete "order" updates)
        | None => updates
        end in
      (Some (setattrs updates db_publication),
       update Publication (getattr db_publication "id") (setattrs updates) db)
  end.

Definition update_publication_order (db : Session) (publication_id : string)
    (order : Z) : option row * Session :=
  match first (filter_eq "id" (VStr publication_id) (query Publication db)) with
  | None => (None, db)
  | Some db_publication =>
      let set_order := <["displayOrder" := VInt order]> in
      (Some (set_order db_publication),
       update Publication (getattr db_publication "id") set_order db)
  end.

(** Modelled from the spec: the cascade of a publication's delete to its
    authors is declared in [models.py], which is not among the sources;
    the specification states it ("removes the publication and, by
    storage-engine cascade, its authors"). *)
Definition cascade_authors (publication_id : value) (db : Session) : Session :=
  store Author
    (filter (λ r, getattr r "publicationId" ≠ publication_id) (query Author db)) db.

Definition delete_publication (db : Session) (publication_id : string) : bool * Session :=
  match first (filter_eq "id" (VStr publication_id) (query Publication db)) with
  | None => (false, db)
  | Some db_publication =>
      let pk := getattr db_publication "id" in
      (true, cascade_authors pk (delete_pk Publication pk db))
  end.

(** *** Author CRUD *)

Definition create_author (db : Session) (author : AuthorCreate.t)
    (publication_id : string) : row * Session :=
  add Author
    (kwargs [ ("name", VStr (AuthorCreate.name author));
              ("homepage", read VNone (AuthorCreate.homepage author));
              ("publicationId", VStr publication_id) ])
    db.

(** *** Research Project CRUD *)

Definition get_all_research_projects (db : Session) : list row :=
  order_by_asc "order" (query ResearchProject db).

Definition create_research_project (db : Session)
    (project : ResearchProjectCreate.t) (author_id : string) : row * Session :=
  add ResearchProject
    (<["authorId" := VStr author_id]> (ResearchProjectCreate.dict_exclude_unset project))
    db.

(** *** News CRUD *)

Definition get_all_news (db : Session) : list row :=
  order_by_desc "publishedAt" (query News db).

Definition get_recent_news (db : Session) (n : nat) : list row :=
  limit n (order_by_desc "publishedAt" (query News db)).

Definition get_news_by_id (db : Session) (news_id : string) : option row :=
  first (filter_eq "id" (VStr news_id) (query News db)).

Definition create_news (db : Session) (news : NewsCreate.t) (author_id : string)
  : row * Session :=
  add News (<["authorId" := VStr author_id]> (NewsCreate.dict_exclude_unset news)) db.

Definition update_news (db : Session) (news_id : string) (news : NewsCreate.t)
  : option row * Session :=
  match first (filter_eq "id" (VStr news_id) (query News db)) with
  | None => (None, db)
  | Some db_news =>
      let updates := NewsCreate.dict_exclude_unset news in
      (Some (setattrs updates db_news),
       update News (getattr db_news "id") (setattrs updates) db)
  end.

Definition delete_news (db : Session) (news_id : string) : bool * Session :=
  match first (filter_eq "id" (VStr news_id) (query News db)) with
  | None => (false, db)
  | Some db_news => (true, delete_pk News (getattr db_news "id") db)
  end.

(** *** Member CRUD *)

Definition get_members (db : Session) : list row :=
  order_by_asc "name" (query Member db).

(** [grouped[key].append(m)]: [None] is the KeyError of a missing key. *)
Definition append_to (key : string) (m : row) (grouped : gmap string (list row))
  : option (gmap string (list row)) :=
  l ← grouped !! key; Some (<[key := l ++ [m]]> grouped).

(** The body of the loop over [members]. *)
Definition group_member (grouped : gmap string (list row)) (m : row)
  : option (gmap string (list row)) :=
  if decide (lower (or_empty (getattr m "status")) = "alumni") then
    append_to "alumni" m grouped
  else
    let deg := lower (or_empty (getattr m "degree")) in
    if decide (is_Some (grouped !! deg)) then append_to deg m grouped
    else if decide (deg ∈ ["phd"; "ph.d"; "doctor"]) then append_to "phd" m grouped
    else if startswith deg "master" then append_to "masters" m grouped
    else if startswith deg "bachelor" then append_to "bachelors" m grouped
    else append_to "other" m grouped.

Fixpoint group_members (grouped : gmap string (list row)) (members : list row)
  : option (gmap string (list row)) :=
  match members with
  | [] => Some grouped
  | m :: rest => grouped' ← group_member grouped m; group_members grouped' rest
  end.

Definition get_members_by_degree_level (db : Session)
  : option (gmap string (list row)) :=
  let members := order_by_asc "name" (query Member db) in
  let grouped : gmap string (list row) :=
    list_to_map [ ("masters", []); ("bachelors", []); ("phd", []);
                  ("other", []); ("alumni", []) ] in
  group_members grouped members.

Definition create_member (db : Session) (member : MemberCreate.t) : row * Session :=
  add Member (MemberCreate.dict_exclude_unset member) db.

Definition update_member (db : Session) (member_id : string) (member : MemberUpdate.t)
  : option row * Session :=
  match first (filter_eq "id" (VStr member_id) (query Member db)) with
  | None => (None, db)
  | Some db_member =>
      let updates := MemberUpdate.dict_exclude_unset member in
      (Some (setattrs updates db_member),
       update Member (getattr db_member "id") (setattrs updates) db)
  end.

Definition delete_member (db : Session) (member_id : string) : bool * Session :=
  match first (filter_eq "id" (VStr member_id) (query Member db)) with
  | None => (false, db)
  | Some db_member => (true, delete_pk Member (getattr db_member "id") db)
  end.

(** *** Research Area CRUD *)

Definition get_all_research_areas (db : Session) : list row :=
  order_by_asc "order" (query ResearchArea db).

(** [parentId == None] is the test for a NULL column. *)
Definition get_research_areas_by_parent (db : Session) (parent_id : option string)
  : list row :=
  match parent_id with
  | None => order_by_asc "order" (filter_eq "parentId" VNone (query ResearchArea db))
  | Some p =>
      order_by_asc "order" (filter_eq "parentId" (VStr p) (query ResearchArea db))
  end.

Definition get_research_area_by_id (db : Session) (area_id : string) : option row :=
  first (filter_eq "id" (VStr area_id) (query ResearchArea db)).

Definition create_research_area (db : Session) (area : ResearchAreaCreate.t)
  : row * Session :=
  add ResearchArea (ResearchAreaCreate.dict_exclude_unset area) db.

Definition update_research_area (db : Session) (area_id : string)
    (area : ResearchAreaCreate.t) : option row * Session :=
  match first (filter_eq "id" (VStr area_id) (query ResearchArea db)) with
  | None => (None, db)
  | Some db_area =>
      let updates := ResearchAreaCreate.dict_exclude_unset area in
      (Some (setattrs updates db_area),
       update ResearchArea (getattr db_area "id") (setattrs updates) db)
  end.

Definition delete_research_area (db : Session) (area_id : string) : bool * Session :=
  match first (filter_eq "id" (VStr area_id) (query ResearchArea db)) with
  | None => (false, db)
  | Some db_area => (true, delete_pk ResearchArea (getattr db_area "id") db)
  end.

(** *** Lab Info CRUD *)

Definition get_lab_info (db : Session) : option row :=
  first (filter_eq "id" (VStr "lab_settings") (query LabInfo db)).

Definition create_or_update_lab_info (db : Session) (lab_info : LabInfoCreate.t)
  : row * Session :=
  match first (filter_eq "id" (VStr "lab_settings") (query LabInfo db)) with
  | Some db_lab_info =>
      let updates := LabInfoCreate.dict_exclude_unset lab_info in
      (setattrs updates db_lab_info,
       update LabInfo (getattr db_lab_info "id") (setattrs updates) db)
  | None =>
      add LabInfo
        (<["id" := VStr "lab_settings"]> (LabInfoCreate.dict_exclude_unset lab_info))
        db
  end.

(** A client of the Lab Info functions: the calls it can make, and the
    session after a sequence of them. *)
Inductive lab_call :=
  | GetLabInfo
  | CreateOrUpdateLabInfo (lab_info : LabInfoCreate.t).

Definition lab_step (db : Session) (c : lab_call) : Session :=
  match c with
  | GetLabInfo => db
  | CreateOrUpdateLabInfo lab_info => (create_or_update_lab_info db lab_info).2
  end.

Definition lab_run (db : Session) (calls : list lab_call) : Session :=
  foldl lab_step db calls.

End Crud.

(** ** The vocabulary of the properties *)

(** The row a query for the primary key [id] finds in the table of [m],
    as every function of [crud.py] that takes an id starts by asking. *)
Definition find_by_id (m : model) (id : string) (db : Session) : option row :=
  first (filter_eq "id" (VStr id) (query m db)).

(** No row, respectively some row, of the table of [m] has the id. *)
Definition id_absent (m : model) (id : string) (db : Session) : Prop :=
  Forall (λ r, getattr r "id" ≠ VStr id) (query m db).
Definition id_present (m : model) (id : string) (db : Session) : Prop :=
  Exists (λ r, getattr r "id" = VStr id) (query m db).

(** What one turn of the author loop of [create_publication] persists. *)
Definition author_persisted (publication_id : value) (idx : nat)
    (author_data : AuthorCreate.t) (r : row) : Prop :=
  r !! "displayOrder"
    = Some (default (VInt (Z.of_nat idx)) (assigned (AuthorCreate.order author_data)))
  ∧ r !! "name" = Some (VStr (AuthorCreate.name author_data))
  ∧ r !! "publicationId" = Some publication_id.

(** The rows of a table that carry another id are the same before and after. *)
Definition others_unchanged (id : string) (before after : list row) : Prop :=
  Forall2 (λ x x', getattr x "id" ≠ VStr id → x' = x) before after.

(** What a partial update of the row [r] stored under [id] must deliver:
    it returns the row as now stored under [id], on which every attribute
    in [untouched] reads as on [r]; the rows under other ids and the other
    tables are as before. *)
Definition partial_update_ok (m : model) (id : string) (db : Session) (r : row)
    (untouched : string → Prop) (result : option row * Session) : Prop :=
  ∃ r', result.1 = Some r'
        ∧ find_by_id m id result.2 = Some r'
        ∧ (∀ k, untouched k → r' !! k = r !! k)
        ∧ (∀ m', m' ≠ m → query m' result.2 = query m' db)
        ∧ others_unchanged id (query m db) (query m result.2).

(** At most one Lab Info row, keyed by the sentinel. *)
Definition lab_info_singleton (db : Session) : Prop :=
  query LabInfo db = []
  ∨ ∃ r, query LabInfo db = [r] ∧ getattr r "id" = VStr "lab_settings".

(** Row [x] comes strictly before row [y] in column [col]. *)
Definition strictly_before {engine : Storage} (col : string) (x y : row) : Prop :=
  ¬ col_le (getattr y col) (getattr x col).

(** The five buckets. *)
Definition buckets : list string := ["masters"; "bachelors"; "phd"; "other"; "alumni"].

(** The classification as the specification words it (section 4.5, rules
    1 to 6, first match wins), to be compared with the loop of
    [get_members_by_degree_level]. *)
Definition spec_bucket (m : row) : string :=
  let status := lower (or_empty (getattr m "status")) in
  let degree := lower (or_empty (getattr m "degree")) in
  if decide (status = "alumni") then "alumni"
  else if decide (degree ∈ buckets) then degree
  else if decide (degree ∈ ["phd"; "ph.d"; "doctor"]) then "phd"
  else if startswith degree "master" then "masters"
  else if startswith degree "bachelor" then "bachelors"
  else "other".

(** The lists of the five buckets, in the order the dict literal names
    them. *)
Definition bucket_lists (grouped : gmap string (list row)) : list (list row) :=
  (λ b, default [] (grouped !! b)) <$> buckets.

(** The keys of the dict are the five bucket names. *)
Definition five_keys (grouped : gmap string (list row)) : Prop :=
  ∀ k, is_Some (grouped !! k) ↔ k ∈ buckets.

(** An input that sets only the order of a publication. *)
Definition only_order (order : Z) : PublicationCreate.t :=
  {| PublicationCreate.title := Unset; PublicationCreate.journal := Unset;
     PublicationCreate.conference := Unset; PublicationCreate.year := Unset;
     PublicationCreate.type := Unset; PublicationCreate.abstract := Unset;
     PublicationCreate.pdfUrl := Unset; PublicationCreate.imageUrl := Unset;
     PublicationCreate.order := Given (Some order) |}.

(** The parentId column of the areas under [parent_id]: NULL for the roots. *)
Definition parent_value (parent_id : option string) : value :=
  match parent_id with None => VNone | Some p => VStr p end.

(** What a delete by id must deliver: it answers whether a row carried the
    id, leaves in the table exactly the rows under other ids, in their
    order, and leaves the other tables alone; afterwards the id is not
    found, and every other id is found as before. *)
Definition delete_ok (m : model) (id : string) (db : Session)
    (result : bool * Session) : Prop :=
  (result.1 = true ↔ id_present m id db)
  ∧ query m result.2 = filter (λ r, getattr r "id" ≠ VStr id) (query m db)
  ∧ find_by_id m id result.2 = None
  ∧ (∀ id', id' ≠ id → find_by_id m id' result.2 = find_by_id m id' db)
  ∧ (∀ m', m' ≠ m → query m' result.2 = query m' db).

(** What an update by id must deliver beyond the frame of the partial
    update: the row returned is the stored row overlaid with the supplied
    fields [d], it is what the id now reads as, and every other id reads as
    before. *)
Definition update_read_back (m : model) (id : string) (db : Session) (d : row)
    (result : option row * Session) : Prop :=
  result.1 = (d ∪.) <$> find_by_id m id db
  ∧ find_by_id m id result.2 = result.1
  ∧ (∀ id', id' ≠ id → find_by_id m id' result.2 = find_by_id m id' db).

(** ** A reference storage engine

    One inhabitant of [Storage], used to run the functions on concrete
    sessions: NULL sorts first, then booleans, integers and strings, the
    strings byte-wise; a new object gets the table's name and row count as
    its id. *)

Module Reference.

Definition code (v : value) : nat * (Z * list N) :=
  match v with
  | VNone => (0%nat, (0, []))
  | VBool b => (1%nat, (Z.b2z b, []))
  | VInt z => (2%nat, (z, []))
  | VStr s => (3%nat, (0, N_of_ascii <$> String.list_ascii_of_string s))
  end.

Definition le : relation value := λ v w, ¬ lexico (code w) (code v).

Definition table_name (m : model) : string :=
  match m with
  | User => "user" | Publication => "publication" | Author => "author"
  | ResearchProject => "project" | News => "news" | Member => "member"
  | ResearchArea => "area" | LabInfo => "labinfo"
  end.

Definition defaults (m : model) (db : Session) : row :=
  {[ "id" := VStr (table_name m +:+ "-" +:+ pretty (length (query m db))) ]}.

#[export] Instance le_dec : RelDecision le.
Proof. intros v w. unfold le. apply _. Defined.

Lemma le_total : Total le.
Proof.
  intros v w. unfold le.
  destruct (decide (lexico (code w) (code v))) as [Hlt|]; [|by left].
  right. intros Hgt. by apply (irreflexivity lexico (code v)); trans (code w).
Qed.

Lemma le_trans : Transitive le.
Proof.
  intros u v w. unfold le. intros Huv Hvw Hwu.
  destruct (trichotomy lexico (code u) (code v)) as [Hlt|[Heq|Hgt]]; [| |done].
  - apply Hvw. by trans (code u).
  - apply Hvw. by rewrite <-Heq.
Qed.

#[export] Instance storage : Storage :=
  {| col_le := le; col_le_total := le_total; col_le_trans := le_trans;
     column_defaults := defaults |}.

End Reference.

(** ** Example data

    The rows and inputs of the specification's examples. *)

(** The specification's example: a publication given as [{order: 2}] with
    the authors [{name: "A"}] and [{name: "B", order: 5}], created in an
    empty database on the reference engine. *)
Definition publication_order_2 : PublicationCreate.t :=
  {| PublicationCreate.title := Unset; PublicationCreate.journal := Unset;
     PublicationCreate.conference := Unset; PublicationCreate.year := Unset;
     PublicationCreate.type := Unset; PublicationCreate.abstract := Unset;
     PublicationCreate.pdfUrl := Unset; PublicationCreate.imageUrl := Unset;
     PublicationCreate.order := Given (Some 2) |}.

Definition author_A : AuthorCreate.t :=
  {| AuthorCreate.name := "A"; AuthorCreate.homepage := Unset;
     AuthorCreate.order := Unset |}.

Definition author_B : AuthorCreate.t :=
  {| AuthorCreate.name := "B"; AuthorCreate.homepage := Unset;
     AuthorCreate.order := Given (Some 5) |}.

Definition news_3 : row := {[ "id" := VStr "n3"; "publishedAt" := VInt 3 ]}.
Definition news_5 : row := {[ "id" := VStr "n5"; "publishedAt" := VInt 5 ]}.
Definition news_7 : row := {[ "id" := VStr "n7"; "publishedAt" := VInt 7 ]}.

Definition amy : row :=
  {[ "id" := VStr "m1"; "name" := VStr "Amy"; "degree" := VStr "PhD";
     "status" := VStr "current" ]}.
Definition bo : row :=
  {[ "id" := VStr "m2"; "name" := VStr "Bo"; "degree" := VStr "Master of Science";
     "status" := VStr "alumni" ]}.
Definition cy : row :=
  {[ "id" := VStr "m3"; "name" := VStr "Cy"; "degree" := VStr "Undergraduate";
     "status" := VStr "current" ]}.

Definition publication_1 : row :=
  {[ "id" := VStr "p1"; "title" := VStr "On maps"; "displayOrder" := VInt 4 ]}.
Definition area_1 : row :=
  {[ "id" := VStr "a1"; "name" := VStr "Vision"; "order" := VInt 1 ]}.

(** A session holding the rows above, the members and news out of order. *)
Definition lab_db : Session :=
  {| t_User := []; t_Publication := [publication_1]; t_Author := [];
     t_ResearchProject := []; t_News := [news_3; news_7; news_5];
     t_Member := [cy; amy; bo]; t_ResearchArea := [area_1]; t_LabInfo := [] |}.

(** An update that sets only the member's bio. *)
Definition bio_only : MemberUpdate.t :=
  {| MemberUpdate.name := Unset; MemberUpdate.degree := Unset;
     MemberUpdate.email := Unset; MemberUpdate.imageUrl := Unset;
     MemberUpdate.homepage := Unset; MemberUpdate.joinedAt := Unset;
     MemberUpdate.status := Unset; MemberUpdate.bio := Given (Some "Reads maps.");
     MemberUpdate.researchInterests := Unset |}.

(** A first Lab Info input, and a later one that sets the PI's phone only. *)
Definition lab_info_first : LabInfoCreate.t :=
  {| LabInfoCreate.labName := Given "GILab";
     LabInfoCreate.principalInvestigator := Given "Kim";
     LabInfoCreate.piTitle := Given "Professor";
     LabInfoCreate.piEmail := Unset; LabInfoCreate.piPhone := Unset;
     LabInfoCreate.piPhoto := Unset; LabInfoCreate.piBio := Unset;
     LabInfoCreate.description := Given None;
     LabInfoCreate.address := Given "1 Campus Road";
     LabInfoCreate.latitude := Unset; LabInfoCreate.longitude := Unset;
     LabInfoCreate.building := Unset; LabInfoCreate.room := Unset;
     LabInfoCreate.university := Given "U"; LabInfoCreate.department := Given "CS";
     LabInfoCreate.website := Unset; LabInfoCreate.establishedYear := Unset;
     LabInfoCreate.researchFocus := Unset;
     LabInfoCreate.contactEmail := Given "lab@u.example";
     LabInfoCreate.contactPhone := Unset; LabInfoCreate.officeHours := Unset |}.

Definition lab_info_phone : LabInfoCreate.t :=
  {| LabInfoCreate.labName := Unset; LabInfoCreate.principalInvestigator := Unset;
     LabInfoCreate.piTitle := Unset; LabInfoCreate.piEmail := Unset;
     LabInfoCreate.piPhone := Given (Some "555-0100"); LabInfoCreate.piPhoto := Unset;
     LabInfoCreate.piBio := Unset; LabInfoCreate.description := Unset;
     LabInfoCreate.address := Unset; LabInfoCreate.latitude := Unset;
     LabInfoCreate.longitude := Unset; LabInfoCreate.building := Unset;
     LabInfoCreate.room := Unset; LabInfoCreate.university := Unset;
     LabInfoCreate.department := Unset; LabInfoCreate.website := Unset;
     LabInfoCreate.establishedYear := Unset; LabInfoCreate.researchFocus := Unset;
     LabInfoCreate.contactEmail := Unset; LabInfoCreate.contactPhone := Unset;
     LabInfoCreate.officeHours := Unset |}.

(** The session after the first create-or-update on an empty database. *)
Definition lab_created : row * Session :=
  create_or_update_lab_info (engine := Reference.storage) empty_session lab_info_first.

(** Example data for the further properties: a pending user, an area with
    a child, a doctoral candidate. *)
Definition user_kim : row :=
  {[ "id" := VStr "u1"; "email" := VStr "kim@u.example";
     "isApproved" := VBool false; "isAdmin" := VBool false ]}.
Definition area_child : row :=
  {[ "id" := VStr "a2"; "name" := VStr "Detection"; "parentId" := VStr "a1";
     "order" := VInt 1 ]}.
Definition candidate : row :=
  {[ "id" := VStr "m4"; "name" := VStr "Di"; "degree" := VStr "PhD Candidate";
     "status" := VStr "current" ]}.

Definition site_db : Session :=
  {| t_User := [user_kim]; t_Publication := []; t_Author := [];
     t_ResearchProject := []; t_News := [news_3]; t_Member := [candidate; amy];
     t_ResearchArea := [area_1; area_child]; t_LabInfo := [] |}.

Definition area_under_a1 : ResearchAreaCreate.t :=
  {| ResearchAreaCreate.name := Given "Tracking";
     ResearchAreaCreate.description := Unset;
     ResearchAreaCreate.parentId := Given (Some "a1");
     ResearchAreaCreate.imageUrl := Unset; ResearchAreaCreate.order := Unset;
     ResearchAreaCreate.isActive := Unset |}.

Definition news_hello : NewsCreate.t :=
  {| NewsCreate.title := Given "Hello"; NewsCreate.content := Given "World";
     NewsCreate.summary := Unset; NewsCreate.imageUrl := Unset |}.

Definition user_lee : UserCreate.t :=
  {| UserCreate.email := "lee@u.example"; UserCreate.firstName := "Lee";
     UserCreate.lastName := "Park"; UserCreate.password := "secret" |}.

(** * Properties *)

(** ** Tables *)

Lemma query_store_eq m rows db : query m (store m rows db) = rows.
Proof. by destruct m. Qed.

Lemma query_store_ne m m' rows db : m ≠ m' → query m' (store m rows db) = query m' db.
Proof. by destruct m, m'. Qed.

Lemma store_query m db : store m (query m db) db = db.
Proof. by destruct db, m. Qed.

(** ** Dicts and attribute maps *)

Lemma setattrs_union d obj : setattrs d obj = d ∪ obj.
Proof.
  unfold setattrs.
  apply (map_fold_weak_ind (λ acc d', acc = d' ∪ obj)).
  - by rewrite (left_id_L ∅ (∪)).
  - intros k v d' acc _ ->. by rewrite insert_union_l.
Qed.

Lemma setattrs_empty obj : setattrs ∅ obj = obj.
Proof. by rewrite setattrs_union, (left_id_L ∅ (∪)). Qed.

Lemma setattrs_lookup_None d obj k : d !! k = None → setattrs d obj !! k = obj !! k.
Proof. intros Hk. rewrite setattrs_union. by apply lookup_union_r. Qed.

Lemma getattr_setattrs_None d obj k : d !! k = None → getattr (setattrs d obj) k = getattr obj k.
Proof. intros Hk. unfold getattr. by rewrite setattrs_lookup_None. Qed.

Lemma dict_of_lookup_notin items k : k ∉ items.*1 → dict_of items !! k = None.
Proof.
  unfold dict_of. induction items as [|[k' [v|]] items IH]; simpl; intros Hk.
  - done.
  - rewrite lookup_insert_ne; [apply IH|]; set_solver.
  - apply IH. set_solver.
Qed.

Lemma dict_of_unset items : Forall (λ kv, kv.2 = None) items → dict_of items = ∅.
Proof.
  unfold dict_of. induction 1 as [|[k o] items Hk _ IH]; simpl in *; [done|].
  by rewrite Hk.
Qed.

Lemma dict_of_lookup items k o :
  NoDup items.*1 → (k, o) ∈ items → dict_of items !! k = o.
Proof.
  induction items as [|[k' o'] items IH]; simpl; intros Hnd Hin.
  - by apply elem_of_nil in Hin.
  - apply NoDup_cons in Hnd as [Hk' Hnd].
    apply elem_of_cons in Hin as [[= -> ->]|Hin].
    + destruct o' as [v|]; unfold dict_of; simpl.
      * apply lookup_insert_eq.
      * by apply dict_of_lookup_notin.
    + assert (k ≠ k').
      { intros ->. apply Hk'. apply list_elem_of_fmap. by exists (k', o). }
      transitivity (dict_of items !! k); [|by apply IH].
      destruct o' as [v|]; unfold dict_of; simpl; [|done].
      by rewrite lookup_insert_ne.
Qed.

(** Closes [NoDup] and membership goals over a literal list of keys. *)
Ltac literal_keys :=
  lazymatch goal with
  | |- NoDup _ => by apply (bool_decide_unpack _); vm_compute
  | |- _ ∉ _ => by apply (bool_decide_unpack _); vm_compute
  | |- _ ∈ _ => simpl; repeat first [by apply list_elem_of_here | apply list_elem_of_further]
  end.

Lemma author_dict_order a :
  AuthorCreate.dict_exclude_unset a !! "order" = assigned (AuthorCreate.order a).
Proof. apply dict_of_lookup; literal_keys. Qed.

Lemma author_dict_name a :
  AuthorCreate.dict_exclude_unset a !! "name" = Some (VStr (AuthorCreate.name a)).
Proof. apply dict_of_lookup; literal_keys. Qed.

Lemma publication_dict_order p :
  PublicationCreate.dict_exclude_unset p !! "order" = assigned (PublicationCreate.order p).
Proof. apply dict_of_lookup; literal_keys. Qed.

(** ** Creating rows *)

Section Creation.
Context {engine : Storage}.

Lemma add_obj m kw db : (add m kw db).1 = kw ∪ column_defaults m db.
Proof. done. Qed.

Lemma query_add_eq m kw db :
  query m (add m kw db).2 = query m db ++ [(add m kw db).1].
Proof. unfold add; simpl. apply query_store_eq. Qed.

Lemma query_add_ne m m' kw db : m ≠ m' → query m' (add m kw db).2 = query m' db.
Proof. intros. unfold add; simpl. by apply query_store_ne. Qed.

Lemma add_lookup_Some m kw db k v : kw !! k = Some v → (add m kw db).1 !! k = Some v.
Proof. intros Hk. rewrite add_obj. by apply lookup_union_Some_l. Qed.

Lemma add_lookup_None m kw db k :
  kw !! k = None → (add m kw db).1 !! k = column_defaults m db !! k.
Proof. intros Hk. rewrite add_obj. by apply lookup_union_r. Qed.

Lemma kwargs_lookup l k v : NoDup l.*1 → (k, v) ∈ l → kwargs l !! k = Some v.
Proof. apply elem_of_list_to_map_1. Qed.

Lemma kwargs_lookup_notin l k : k ∉ l.*1 → kwargs l !! k = None.
Proof. apply not_elem_of_list_to_map_1. Qed.

Lemma add_author_spec publication_id db idx author_data :
  ∃ r, query Author (add_author publication_id db idx author_data)
         = query Author db ++ [r]
       ∧ author_persisted publication_id idx author_data r.
Proof.
  unfold add_author, pop. cbv beta iota zeta.
  eexists. split; [apply query_add_eq|].
  split_and!; apply add_lookup_Some.
  - rewrite lookup_insert_ne by done. rewrite lookup_insert_eq.
    by rewrite author_dict_order.
  - rewrite !lookup_insert_ne, lookup_delete_ne by done. apply author_dict_name.
  - apply lookup_insert_eq.
Qed.

Lemma add_author_other publication_id db idx author_data m :
  m ≠ Author → query m (add_author publication_id db idx author_data) = query m db.
Proof.
  intros. unfold add_author, pop. cbv beta iota zeta. by apply query_add_ne.
Qed.

(** C7. [create_user] persists the new user with isApproved=False and
    isAdmin=False, whatever the input and the password hash: the object
    returned is the one row appended to the user table, both of its flags
    are false, and so any two calls, on any inputs, hashes and sessions,
    produce users with the same flags. *)
Theorem create_user_unapproved_non_admin db user hashed_password :
  let db_user := (create_user db user hashed_password).1 in
  let db' := (create_user db user hashed_password).2 in
  query User db' = query User db ++ [db_user]
  ∧ db_user !! "isApproved" = Some (VBool false)
  ∧ db_user !! "isAdmin" = Some (VBool false)
  ∧ ∀ db2 user2 hashed_password2,
      let db_user2 := (create_user db2 user2 hashed_password2).1 in
      db_user2 !! "isApproved" = db_user !! "isApproved"
      ∧ db_user2 !! "isAdmin" = db_user !! "isAdmin".
Proof.
  assert (Hflags : ∀ d u h,
    (create_user d u h).1 !! "isApproved" = Some (VBool false)
    ∧ (create_user d u h).1 !! "isAdmin" = Some (VBool false)).
  { intros d u h. unfold create_user.
    split; apply add_lookup_Some, kwargs_lookup; literal_keys. }
  cbv zeta. split; [apply query_add_eq|].
  destruct (Hflags db user hashed_password) as [-> ->].
  repeat split; apply Hflags.
Qed.

(** C9. [create_author] ignores the "order" field of its input: the row it
    persists is built from name, homepage and the publication reference
    alone, every other column (displayOrder among them) is what the mapped
    class supplies, and two inputs that differ only in "order" give the
    same row and the same session.  Inside [create_publication] the same
    input's "order" does reach displayOrder. *)
Theorem create_author_ignores_order db name homepage order1 order2 publication_id :
  let author1 := {| AuthorCreate.name := name; AuthorCreate.homepage := homepage;
                    AuthorCreate.order := order1 |} in
  let author2 := {| AuthorCreate.name := name; AuthorCreate.homepage := homepage;
                    AuthorCreate.order := order2 |} in
  let db_author := (create_author db author1 publication_id).1 in
  create_author db author1 publication_id = create_author db author2 publication_id
  ∧ db_author =
      kwargs [ ("name", VStr name); ("homepage", read VNone homepage);
               ("publicationId", VStr publication_id) ]
      ∪ column_defaults Author db
  ∧ db_author !! "displayOrder" = column_defaults Author db !! "displayOrder"
  ∧ query Author (create_author db author1 publication_id).2
      = query Author db ++ [db_author]
  ∧ ∀ pid idx o,
      let author := {| AuthorCreate.name := name; AuthorCreate.homepage := homepage;
                       AuthorCreate.order := Given o |} in
      ∃ r, query Author (add_author pid db idx author) = query Author db ++ [r]
           ∧ r !! "displayOrder" = Some (to_value o).
Proof.
  cbv zeta. split_and!; try done.
  - unfold create_author. apply add_lookup_None, kwargs_lookup_notin. literal_keys.
  - intros pid idx o.
    destruct (add_author_spec pid db idx
      {| AuthorCreate.name := name; AuthorCreate.homepage := homepage;
         AuthorCreate.order := Given o |}) as (r & Hq & Hr & _).
    by exists r.
Qed.

Lemma add_authors_other publication_id authors_data m :
  m ≠ Author →
  ∀ db idx, query m (add_authors publication_id db idx authors_data) = query m db.
Proof.
  intros Hm. induction authors_data as [|a l IH]; intros db idx; cbn [add_authors]; [done|].
  by rewrite IH, add_author_other.
Qed.

Lemma add_authors_spec publication_id authors_data :
  ∀ db idx, ∃ rows,
    query Author (add_authors publication_id db idx authors_data)
      = query Author db ++ rows
    ∧ length rows = length authors_data
    ∧ ∀ i author_data, authors_data !! i = Some author_data →
        ∃ r, rows !! i = Some r
             ∧ author_persisted publication_id (idx + i) author_data r.
Proof.
  induction authors_data as [|a l IH]; intros db idx; cbn [add_authors].
  - exists []. by rewrite app_nil_r.
  - destruct (add_author_spec publication_id db idx a) as (r0 & Hq0 & Hr0).
    destruct (IH (add_author publication_id db idx a) (S idx))
      as (rows & Hq & Hlen & Hrows).
    exists (r0 :: rows). split_and!.
    + by rewrite Hq, Hq0, <-app_assoc.
    + simpl. by rewrite Hlen.
    + intros [|i] a' Hi; simpl in Hi |- *.
      * injection Hi as <-. exists r0. by rewrite Nat.add_0_r.
      * destruct (Hrows i a' Hi) as (r & Hr & Hp).
        exists r. by rewrite Nat.add_succ_r.
Qed.

(** C1. [create_publication] appends one publication row, whose
    displayOrder is the input's "order" when that field was given and 0
    otherwise, and then one author row per entry of [authors_data], in
    order; the row of the entry at zero-based position [i] carries the
    entry's own "order" as displayOrder when it was given and [i]
    otherwise, together with the entry's name and the id of the new
    publication. *)
Theorem create_publication_display_order db publication author_id authors_data :
  let db_publication := (create_publication db publication author_id authors_data).1 in
  let db' := (create_publication db publication author_id authors_data).2 in
  query Publication db' = query Publication db ++ [db_publication]
  ∧ db_publication !! "displayOrder"
      = Some (match PublicationCreate.order publication with
              | Given o => to_value o
              | Unset => VInt 0
              end)
  ∧ ∃ db_authors,
      query Author db' = query Author db ++ db_authors
      ∧ length db_authors = length authors_data
      ∧ ∀ i author_data, authors_data !! i = Some author_data →
          ∃ db_author,
            db_authors !! i = Some db_author
            ∧ db_author !! "displayOrder"
                = Some (match AuthorCreate.order author_data with
                        | Given o => to_value o
                        | Unset => VInt (Z.of_nat i)
                        end)
            ∧ db_author !! "name" = Some (VStr (AuthorCreate.name author_data))
            ∧ db_author !! "publicationId" = Some (getattr db_publication "id").
Proof.
  unfold create_publication, pop. cbv beta iota zeta.
  set (kw := <["authorId" := _]> _).
  change (add Publication kw db) with ((add Publication kw db).1, (add Publication kw db).2).
  cbv beta iota. cbn [fst snd].
  set (p := (add Publication kw db).1). set (db1 := (add Publication kw db).2).
  split_and!.
  - rewrite add_authors_other by done. apply query_add_eq.
  - apply add_lookup_Some. subst kw.
    rewrite lookup_insert_ne by done. rewrite lookup_insert_eq.
    rewrite publication_dict_order.
    by destruct (PublicationCreate.order publication).
  - destruct (add_authors_spec (getattr p "id") authors_data db1 0%nat)
      as (rows & Hq & Hlen & Hrows).
    exists rows. split_and!; [|done|].
    + rewrite Hq. subst db1. by rewrite query_add_ne.
    + intros i a Hi. destruct (Hrows i a Hi) as (r & Hr & Hd & Hn & Hp).
      exists r. rewrite Hd. split_and!; try done.
      by destruct (AuthorCreate.order a).
Qed.

End Creation.

(** C1 on the specification's example: the publication gets displayOrder 2,
    author A its position 0, author B its own order 5. *)
Lemma create_publication_display_order_example :
  let created := create_publication (engine := Reference.storage) empty_session
                   publication_order_2 "u1" [author_A; author_B] in
  created.1 !! "displayOrder" = Some (VInt 2)
  ∧ ∃ db_A db_B,
      query Author created.2 = [db_A; db_B]
      ∧ db_A !! "name" = Some (VStr "A") ∧ db_A !! "displayOrder" = Some (VInt 0)
      ∧ db_B !! "name" = Some (VStr "B") ∧ db_B !! "displayOrder" = Some (VInt 5).
Proof.
  cbv zeta.
  destruct (create_publication_display_order (engine := Reference.storage)
              empty_session publication_order_2 "u1" [author_A; author_B])
    as (_ & Hpub & rows & Hq & Hlen & Hrows).
  split; [exact Hpub|].
  destruct (Hrows 0%nat author_A eq_refl) as (db_A & HA & HdA & HnA & _).
  destruct (Hrows 1%nat author_B eq_refl) as (db_B & HB & HdB & HnB & _).
  exists db_A, db_B.
  destruct rows as [|a [|b [|c rows]]]; try discriminate Hlen.
  injection HA as ->. injection HB as ->.
  repeat split; [exact Hq|exact HnA|exact HdA|exact HnB|exact HdB].
Defined.

(** ** Lookups by id: reads, partial updates, deletes *)

Section ById.
Context {engine : Storage}.

Lemma first_filter_eq_Some col v rows r :
  first (filter_eq col v rows) = Some r → r ∈ rows ∧ getattr r col = v.
Proof.
  unfold first, filter_eq. intros Hr.
  apply head_Some_elem_of, list_elem_of_filter in Hr. naive_solver.
Qed.

Lemma first_filter_eq_None col v rows :
  first (filter_eq col v rows) = None ↔ Forall (λ r, getattr r col ≠ v) rows.
Proof.
  unfold first, filter_eq. rewrite head_None.
  induction rows as [|x rows IH]; [done|].
  rewrite filter_cons, Forall_cons. case_decide; naive_solver.
Qed.

Lemma first_filter_deleted v rows :
  first (filter_eq "id" v (filter (λ r, getattr r "id" ≠ v) rows)) = None.
Proof.
  apply first_filter_eq_None, Forall_forall.
  intros r Hr%list_elem_of_filter. naive_solver.
Qed.

Lemma first_filter_updated v f rows r :
  first (filter_eq "id" v rows) = Some r →
  getattr (f r) "id" = v →
  first (filter_eq "id" v
           ((λ x, if decide (getattr x "id" = v) then f x else x) <$> rows))
    = Some (f r).
Proof.
  unfold first, filter_eq. intros Hr Hf.
  induction rows as [|x rows IH]; [done|].
  rewrite fmap_cons. rewrite filter_cons in Hr. rewrite filter_cons.
  destruct (decide (getattr x "id" = v)) as [Hx|Hx].
  - injection Hr as ->. by rewrite decide_True.
  - rewrite decide_False by done. by apply IH.
Qed.

Lemma update_id m pk db : update m pk id db = db.
Proof.
  unfold update. transitivity (store m (query m db) db); [|apply store_query].
  f_equal. etrans; [|apply list_fmap_id].
  apply list_fmap_ext. intros i x _. by case_decide.
Qed.

Lemma update_ext m pk f g db : (∀ r, f r = g r) → update m pk f db = update m pk g db.
Proof.
  intros Hfg. unfold update. f_equal.
  apply list_fmap_ext. intros i x _. case_decide; [apply Hfg|done].
Qed.

Lemma query_update_eq m pk f db :
  query m (update m pk f db)
    = (λ r, if decide (getattr r "id" = pk) then f r else r) <$> query m db.
Proof. apply query_store_eq. Qed.

Lemma query_update_ne m m' pk f db : m ≠ m' → query m' (update m pk f db) = query m' db.
Proof. apply query_store_ne. Qed.

Lemma find_by_id_update m id f db r :
  find_by_id m id db = Some r →
  getattr (f r) "id" = VStr id →
  find_by_id m id (update m (VStr id) f db) = Some (f r).
Proof.
  unfold find_by_id. intros Hr Hf.
  rewrite query_update_eq. by apply first_filter_updated.
Qed.

Lemma find_by_id_pk m id db r : find_by_id m id db = Some r → getattr r "id" = VStr id.
Proof. intros Hr. by apply first_filter_eq_Some in Hr as [_ ?]. Qed.

Lemma find_by_id_delete_pk m id db : find_by_id m id (delete_pk m (VStr id) db) = None.
Proof.
  unfold find_by_id, delete_pk. rewrite query_store_eq. apply first_filter_deleted.
Qed.

End ById.

Section NotFound.
Context {engine : Storage}.

Lemma id_absent_find m id db : id_absent m id db → find_by_id m id db = None.
Proof. apply first_filter_eq_None. Qed.

Lemma id_present_find m id db :
  id_present m id db → ∃ r, find_by_id m id db = Some r ∧ getattr r "id" = VStr id.
Proof.
  intros Hex. destruct (find_by_id m id db) as [r|] eqn:Hr.
  - exists r. split; [done|]. by apply find_by_id_pk in Hr.
  - apply first_filter_eq_None in Hr. apply Exists_exists in Hex as (r & Hin & Hid).
    by apply (proj1 (Forall_forall _ _) Hr) in Hin.
Qed.

Lemma delete_pk_absent m id db : id_absent m id (delete_pk m (VStr id) db).
Proof. apply first_filter_eq_None, (find_by_id_delete_pk m id db). Qed.

(** Unfolds a function of [crud.py] at an id no row has. *)
Ltac not_found Habs :=
  intros; repeat split; intros;
  unfold approve_user, update_publication, update_publication_order,
    delete_publication, get_news_by_id, update_news, delete_news, update_member,
    delete_member, get_research_area_by_id, update_research_area,
    delete_research_area, get_lab_info;
  let Hn := fresh in
  pose proof (id_absent_find _ _ _ Habs) as Hn; unfold find_by_id in Hn;
  by rewrite Hn.

(** C3. On an id that no row carries, no function raises: every one
    returns a value, the single-entity reads and the updates (partial
    updates, the display-order update and the approval) return None, the
    deletes return False, and the session is left as it was.  On an id that
    some row carries, a delete returns True and the same delete called
    again on the resulting session returns False and changes nothing. *)
Theorem not_found_is_none_or_false db id :
  (id_absent User id db → approve_user db id = (None, db))
  ∧ (id_absent Publication id db →
       (∀ publication, update_publication db id publication = (None, db))
       ∧ (∀ order, update_publication_order db id order = (None, db))
       ∧ delete_publication db id = (false, db))
  ∧ (id_absent News id db →
       get_news_by_id db id = None
       ∧ (∀ news, update_news db id news = (None, db))
       ∧ delete_news db id = (false, db))
  ∧ (id_absent Member id db →
       (∀ member, update_member db id member = (None, db))
       ∧ delete_member db id = (false, db))
  ∧ (id_absent ResearchArea id db →
       get_research_area_by_id db id = None
       ∧ (∀ area, update_research_area db id area = (None, db))
       ∧ delete_research_area db id = (false, db))
  ∧ (id_absent LabInfo "lab_settings" db → get_lab_info db = None)
  ∧ (id_present Publication id db →
       (delete_publication db id).1 = true
       ∧ delete_publication (delete_publication db id).2 id
           = (false, (delete_publication db id).2))
  ∧ (id_present News id db →
       (delete_news db id).1 = true
       ∧ delete_news (delete_news db id).2 id = (false, (delete_news db id).2))
  ∧ (id_present Member id db →
       (delete_member db id).1 = true
       ∧ delete_member (delete_member db id).2 id = (false, (delete_member db id).2))
  ∧ (id_present ResearchArea id db →
       (delete_research_area db id).1 = true
       ∧ delete_research_area (delete_research_area db id).2 id
           = (false, (delete_research_area db id).2)).
Proof.
  split_and!; try (intros Habs; not_found Habs);
    intros (r & Hr & Hid)%id_present_find; unfold find_by_id in Hr.
  - assert (Hgone : id_absent Publication id (delete_publication db id).2).
    { unfold delete_publication. rewrite Hr, Hid. cbn [snd].
      unfold id_absent, cascade_authors. rewrite query_store_ne by done.
      apply delete_pk_absent. }
    split; [unfold delete_publication; by rewrite Hr|].
    apply id_absent_find in Hgone. unfold find_by_id in Hgone.
    unfold delete_publication at 1. by rewrite Hgone.
  - assert (Hgone : id_absent News id (delete_news db id).2).
    { unfold delete_news. rewrite Hr, Hid. apply delete_pk_absent. }
    split; [unfold delete_news; by rewrite Hr|].
    apply id_absent_find in Hgone. unfold find_by_id in Hgone.
    unfold delete_news at 1. by rewrite Hgone.
  - assert (Hgone : id_absent Member id (delete_member db id).2).
    { unfold delete_member. rewrite Hr, Hid. apply delete_pk_absent. }
    split; [unfold delete_member; by rewrite Hr|].
    apply id_absent_find in Hgone. unfold find_by_id in Hgone.
    unfold delete_member at 1. by rewrite Hgone.
  - assert (Hgone : id_absent ResearchArea id (delete_research_area db id).2).
    { unfold delete_research_area. rewrite Hr, Hid. apply delete_pk_absent. }
    split; [unfold delete_research_area; by rewrite Hr|].
    apply id_absent_find in Hgone. unfold find_by_id in Hgone.
    unfold delete_research_area at 1. by rewrite Hgone.
Qed.

End NotFound.

(** ** Partial updates *)

Section PartialUpdate.
Context {engine : Storage}.

Lemma update_others_unchanged m id f db :
  others_unchanged id (query m db) (query m (update m (VStr id) f db)).
Proof.
  rewrite query_update_eq. unfold others_unchanged.
  apply Forall2_fmap_r, Forall_Forall2_diag, Forall_forall.
  intros x _ Hx. by rewrite decide_False.
Qed.

Lemma setattrs_update_spec m id d db r :
  find_by_id m id db = Some r →
  d !! "id" = None →
  let db' := update m (getattr r "id") (setattrs d) db in
  find_by_id m id db' = Some (setattrs d r)
  ∧ (∀ k, d !! k = None → setattrs d r !! k = r !! k)
  ∧ (∀ m', m' ≠ m → query m' db' = query m' db)
  ∧ others_unchanged id (query m db) (query m db').
Proof.
  intros Hr Hd db'. subst db'. rewrite (find_by_id_pk _ _ _ _ Hr). split_and!.
  - apply find_by_id_update; [done|].
    rewrite getattr_setattrs_None by done. by apply find_by_id_pk in Hr.
  - intros k Hk. by apply setattrs_lookup_None.
  - intros m' Hm. by apply query_update_ne.
  - apply update_others_unchanged.
Qed.

Lemma setattrs_update_empty m pk db : update m pk (setattrs ∅) db = db.
Proof.
  rewrite (update_ext _ _ _ id); [apply update_id|]. apply setattrs_empty.
Qed.

Lemma publication_dict_empty :
  PublicationCreate.dict_exclude_unset PublicationCreate.empty = ∅.
Proof. apply dict_of_unset. repeat constructor. Qed.

Lemma news_dict_empty : NewsCreate.dict_exclude_unset NewsCreate.empty = ∅.
Proof. apply dict_of_unset. repeat constructor. Qed.

Lemma member_dict_empty : MemberUpdate.dict_exclude_unset MemberUpdate.empty = ∅.
Proof. apply dict_of_unset. repeat constructor. Qed.

Lemma area_dict_empty :
  ResearchAreaCreate.dict_exclude_unset ResearchAreaCreate.empty = ∅.
Proof. apply dict_of_unset. repeat constructor. Qed.

Lemma publication_dict_no_id p : PublicationCreate.dict_exclude_unset p !! "id" = None.
Proof. apply dict_of_lookup_notin. literal_keys. Qed.

Lemma publication_dict_no_displayOrder p :
  PublicationCreate.dict_exclude_unset p !! "displayOrder" = None.
Proof. apply dict_of_lookup_notin. literal_keys. Qed.

Lemma news_dict_no_id n : NewsCreate.dict_exclude_unset n !! "id" = None.
Proof. apply dict_of_lookup_notin. literal_keys. Qed.

Lemma member_dict_no_id m : MemberUpdate.dict_exclude_unset m !! "id" = None.
Proof. apply dict_of_lookup_notin. literal_keys. Qed.

Lemma area_dict_no_id a : ResearchAreaCreate.dict_exclude_unset a !! "id" = None.
Proof. apply dict_of_lookup_notin. literal_keys. Qed.

Lemma partial_update_ok_setattrs m id d db r (untouched : string → Prop) :
  find_by_id m id db = Some r →
  d !! "id" = None →
  (∀ k, untouched k → d !! k = None) →
  partial_update_ok m id db r untouched
    (Some (setattrs d r), update m (getattr r "id") (setattrs d) db).
Proof.
  intros Hr Hid Hun.
  destruct (setattrs_update_spec m id d db r Hr Hid) as (Hf & Hk & Hm & Ho).
  exists (setattrs d r). split_and!; try done.
  intros k Hu. by apply Hk, Hun.
Qed.

(** C4. A partial update of a publication, a news post, a member or a
    research area whose id exists returns the stored entity and modifies
    no attribute that is absent from the input (for a publication, the
    input's "order" is the attribute displayOrder); rows under other ids
    and other tables are left alone.  With an input in which no field is
    set the entity comes back as it was and the whole session is
    unchanged. *)
Theorem partial_update_keeps_absent_fields db id r :
  (find_by_id Publication id db = Some r →
     (∀ publication,
        let d := PublicationCreate.dict_exclude_unset publication in
        partial_update_ok Publication id db r
          (λ k, d !! k = None ∧ (k = "displayOrder" → d !! "order" = None))
          (update_publication db id publication))
     ∧ update_publication db id PublicationCreate.empty = (Some r, db))
  ∧ (find_by_id News id db = Some r →
     (∀ news,
        let d := NewsCreate.dict_exclude_unset news in
        partial_update_ok News id db r (λ k, d !! k = None)
          (update_news db id news))
     ∧ update_news db id NewsCreate.empty = (Some r, db))
  ∧ (find_by_id Member id db = Some r →
     (∀ member,
        let d := MemberUpdate.dict_exclude_unset member in
        partial_update_ok Member id db r (λ k, d !! k = None)
          (update_member db id member))
     ∧ update_member db id MemberUpdate.empty = (Some r, db))
  ∧ (find_by_id ResearchArea id db = Some r →
     (∀ area,
        let d := ResearchAreaCreate.dict_exclude_unset area in
        partial_update_ok ResearchArea id db r (λ k, d !! k = None)
          (update_research_area db id area))
     ∧ update_research_area db id ResearchAreaCreate.empty = (Some r, db)).
Proof.
  split_and!; intros Hr; pose proof Hr as Hr'; unfold find_by_id in Hr'; split.
  - intros p d. unfold update_publication. rewrite Hr'. fold d.
    pose proof (publication_dict_no_id p) as Hid. fold d in Hid.
    pose proof (publication_dict_no_displayOrder p) as Hdo. fold d in Hdo.
    destruct (d !! "order") as [v|] eqn:Ho.
    + apply partial_update_ok_setattrs; [done| |].
      * rewrite lookup_insert_ne by done. by rewrite lookup_delete_ne.
      * intros k [Hk Hk']. destruct (decide (k = "displayOrder")) as [->|Hne].
        { by specialize (Hk' eq_refl). }
        rewrite lookup_insert_ne by done.
        destruct (decide (k = "order")) as [->|Hne'].
        { apply lookup_delete_eq. }
        by rewrite lookup_delete_ne.
    + apply partial_update_ok_setattrs; [done|done|]. by intros k [Hk _].
  - unfold update_publication. rewrite Hr', publication_dict_empty.
    rewrite lookup_empty. by rewrite setattrs_empty, setattrs_update_empty.
  - intros n d. unfold update_news. rewrite Hr'.
    apply partial_update_ok_setattrs; [done|apply news_dict_no_id|done].
  - unfold update_news. rewrite Hr', news_dict_empty.
    by rewrite setattrs_empty, setattrs_update_empty.
  - intros n d. unfold update_member. rewrite Hr'.
    apply partial_update_ok_setattrs; [done|apply member_dict_no_id|done].
  - unfold update_member. rewrite Hr', member_dict_empty.
    by rewrite setattrs_empty, setattrs_update_empty.
  - intros n d. unfold update_research_area. rewrite Hr'.
    apply partial_update_ok_setattrs; [done|apply area_dict_no_id|done].
  - unfold update_research_area. rewrite Hr', area_dict_empty.
    by rewrite setattrs_empty, setattrs_update_empty.
Qed.

End PartialUpdate.

(** ** The Lab Info singleton *)

Section LabInfoFacts.
Context {engine : Storage}.

Lemma lab_info_dict_no_id l : LabInfoCreate.dict_exclude_unset l !! "id" = None.
Proof. apply dict_of_lookup_notin. literal_keys. Qed.

Lemma update_fixed m pk f db :
  Forall (λ r, getattr r "id" = pk → f r = r) (query m db) → update m pk f db = db.
Proof.
  intros Hfix. unfold update.
  transitivity (store m (query m db) db); [|apply store_query].
  f_equal. etrans; [|apply list_fmap_id].
  apply Forall_fmap_ext_1. eapply Forall_impl; [exact Hfix|].
  intros r Hr. simpl. case_decide; auto.
Qed.

Lemma setattrs_absorbed d obj : d ⊆ obj → setattrs d obj = obj.
Proof. intros Hsub. rewrite setattrs_union. by apply map_subseteq_union. Qed.

Lemma setattrs_included d obj : d ⊆ setattrs d obj.
Proof. rewrite setattrs_union. apply map_union_subseteq_l. Qed.

Lemma created_includes d (v : value) (dflt : row) :
  d !! "id" = None → d ⊆ <["id" := v]> d ∪ dflt.
Proof.
  intros Hid. etrans; [|apply map_union_subseteq_l]. by apply insert_subseteq.
Qed.

(** In both branches the row returned carries every supplied field. *)
Lemma create_or_update_lab_info_includes db lab_info :
  LabInfoCreate.dict_exclude_unset lab_info ⊆ (create_or_update_lab_info db lab_info).1.
Proof.
  unfold create_or_update_lab_info.
  destruct (first _) as [r|]; cbn [fst].
  - apply setattrs_included.
  - rewrite add_obj. apply created_includes, lab_info_dict_no_id.
Qed.

Lemma create_or_update_lab_info_found db lab_info r :
  get_lab_info db = Some r →
  find_by_id LabInfo "lab_settings" (create_or_update_lab_info db lab_info).2
    = Some (create_or_update_lab_info db lab_info).1.
Proof.
  unfold get_lab_info, create_or_update_lab_info. intros Hr. rewrite Hr. cbn [fst snd].
  apply (setattrs_update_spec LabInfo "lab_settings"); [done|apply lab_info_dict_no_id].
Qed.

Lemma create_or_update_lab_info_created db lab_info :
  get_lab_info db = None →
  find_by_id LabInfo "lab_settings" (create_or_update_lab_info db lab_info).2
    = Some (create_or_update_lab_info db lab_info).1.
Proof.
  unfold get_lab_info, create_or_update_lab_info, find_by_id. intros Hr. rewrite Hr.
  rewrite query_add_eq. unfold first, filter_eq. rewrite filter_app.
  unfold first, filter_eq in Hr. apply head_None in Hr. rewrite Hr. cbn [app].
  rewrite filter_cons, decide_True; [done|].
  unfold getattr. by rewrite (add_lookup_Some _ _ _ "id" (VStr "lab_settings"))
    by apply lookup_insert_eq.
Qed.

(** After a call, every row under the sentinel key carries the supplied
    fields. *)
Lemma create_or_update_lab_info_applied db lab_info :
  Forall (λ r, getattr r "id" = VStr "lab_settings" →
               LabInfoCreate.dict_exclude_unset lab_info ⊆ r)
    (query LabInfo (create_or_update_lab_info db lab_info).2).
Proof.
  unfold create_or_update_lab_info.
  destruct (first _) as [r|] eqn:Hr; cbn [snd].
  - rewrite query_update_eq. apply Forall_fmap, Forall_forall. intros x _. simpl.
    rewrite (find_by_id_pk LabInfo "lab_settings" db r Hr).
    case_decide; [intros _; apply setattrs_included|done].
  - rewrite query_add_eq. apply Forall_app. split.
    + apply first_filter_eq_None in Hr. eapply Forall_impl; [exact Hr|]. done.
    + apply Forall_singleton. intros _. rewrite add_obj.
      apply created_includes, lab_info_dict_no_id.
Qed.

Lemma create_or_update_lab_info_stored db lab_info :
  find_by_id LabInfo "lab_settings" (create_or_update_lab_info db lab_info).2
    = Some (create_or_update_lab_info db lab_info).1.
Proof.
  destruct (get_lab_info db) as [r|] eqn:Hr.
  - by apply (create_or_update_lab_info_found db lab_info r).
  - by apply create_or_update_lab_info_created.
Qed.

Lemma create_or_update_lab_info_twice db lab_info :
  create_or_update_lab_info (create_or_update_lab_info db lab_info).2 lab_info
    = create_or_update_lab_info db lab_info.
Proof.
  set (once := create_or_update_lab_info db lab_info).
  set (d := LabInfoCreate.dict_exclude_unset lab_info).
  pose proof (create_or_update_lab_info_stored db lab_info) as Hfound.
  pose proof (create_or_update_lab_info_includes db lab_info) as Hincl.
  fold d once in Hincl, Hfound.
  unfold create_or_update_lab_info at 1. unfold find_by_id in Hfound.
  rewrite Hfound. fold d.
  rewrite (setattrs_absorbed d once.1 Hincl).
  rewrite update_fixed; [by destruct once|].
  rewrite (find_by_id_pk LabInfo "lab_settings" once.2 once.1 Hfound).
  eapply Forall_impl; [apply (create_or_update_lab_info_applied db lab_info)|].
  intros r Himp Hid. by apply setattrs_absorbed, Himp.
Qed.

(** C5. [create_or_update_lab_info] is idempotent: a second call with the
    same input returns the same row and leaves the session exactly as the
    first call left it.  When the sentinel row exists the call is a partial
    update of it by the supplied fields; when it does not, the call appends
    one row, built from the sentinel key, the supplied fields and the
    mapped class's defaults. *)
Theorem create_or_update_lab_info_idempotent db lab_info :
  let d := LabInfoCreate.dict_exclude_unset lab_info in
  let once := create_or_update_lab_info db lab_info in
  create_or_update_lab_info once.2 lab_info = once
  ∧ d ⊆ once.1
  ∧ (∀ r, get_lab_info db = Some r →
       partial_update_ok LabInfo "lab_settings" db r (λ k, d !! k = None)
         (Some once.1, once.2))
  ∧ (get_lab_info db = None →
       once.1 = <["id" := VStr "lab_settings"]> d ∪ column_defaults LabInfo db
       ∧ query LabInfo once.2 = query LabInfo db ++ [once.1]
       ∧ ∀ m, m ≠ LabInfo → query m once.2 = query m db).
Proof.
  intros d once. split_and!.
  - apply create_or_update_lab_info_twice.
  - apply create_or_update_lab_info_includes.
  - intros r Hr. subst once. unfold create_or_update_lab_info.
    unfold get_lab_info in Hr. rewrite Hr. fold d.
    apply partial_update_ok_setattrs; [done|apply lab_info_dict_no_id|done].
  - intros Hr. subst once. unfold create_or_update_lab_info.
    unfold get_lab_info in Hr. rewrite Hr. fold d. split_and!.
    + apply add_obj.
    + apply query_add_eq.
    + intros m Hm. by apply query_add_ne.
Qed.

End LabInfoFacts.

Section LabInfoInvariant.
Context {engine : Storage}.

Lemma create_or_update_lab_info_singleton db lab_info :
  lab_info_singleton db →
  ∃ r, query LabInfo (create_or_update_lab_info db lab_info).2 = [r]
       ∧ getattr r "id" = VStr "lab_settings".
Proof.
  unfold create_or_update_lab_info.
  intros [Hnil|(r & Hone & Hid)].
  - rewrite Hnil. cbn [first filter_eq filter list_filter head].
    exists (add LabInfo
              (<["id" := VStr "lab_settings"]> (LabInfoCreate.dict_exclude_unset lab_info))
              db).1.
    split; [by rewrite query_add_eq, Hnil|].
    unfold getattr.
    by rewrite (add_lookup_Some _ _ _ "id" (VStr "lab_settings"))
      by apply lookup_insert_eq.
  - rewrite Hone. unfold first, filter_eq.
    rewrite filter_cons, decide_True, filter_nil by done. cbn [head snd].
    exists (setattrs (LabInfoCreate.dict_exclude_unset lab_info) r). split.
    + rewrite query_update_eq, Hone. cbn [fmap list_fmap].
      by rewrite decide_True.
    + rewrite getattr_setattrs_None; [done|apply lab_info_dict_no_id].
Qed.

Lemma lab_step_singleton db c : lab_info_singleton db → lab_info_singleton (lab_step db c).
Proof.
  intros Hinv. destruct c as [|lab_info]; [done|].
  right. by apply create_or_update_lab_info_singleton.
Qed.

(** C6. From a session with at most one Lab Info row, keyed by the
    sentinel "lab_settings", every sequence of [get_lab_info] and
    [create_or_update_lab_info] calls leads to a session with at most one
    Lab Info row, keyed by the sentinel; and after two create-or-update
    calls with the same input there is exactly one row, it is the row the
    first call left, and its id is the sentinel. *)
Theorem lab_info_singleton_preserved db calls :
  lab_info_singleton db →
  lab_info_singleton (lab_run db calls)
  ∧ ∀ lab_info,
      let once := lab_run db [CreateOrUpdateLabInfo lab_info] in
      let twice :=
        lab_run db [CreateOrUpdateLabInfo lab_info; CreateOrUpdateLabInfo lab_info] in
      ∃ r, query LabInfo once = [r] ∧ query LabInfo twice = [r]
           ∧ getattr r "id" = VStr "lab_settings".
Proof.
  intros Hinv. split.
  - revert db Hinv. unfold lab_run.
    induction calls as [|c calls IH]; intros db Hinv; [done|].
    cbn [foldl]. by apply IH, lab_step_singleton.
  - intros lab_info. unfold lab_run. cbn [foldl lab_step].
    destruct (create_or_update_lab_info_singleton db lab_info Hinv) as (r & Hq & Hid).
    exists r. split_and!; [done| |done].
    by rewrite create_or_update_lab_info_twice.
Qed.

End LabInfoInvariant.

(** ** Ordered listings *)

Section Ordering.
Context {engine : Storage}.

#[export] Instance asc_le_total col : Total (asc_le col).
Proof. intros r1 r2. apply col_le_total. Qed.

#[export] Instance asc_le_trans col : Transitive (asc_le col).
Proof. intros r1 r2 r3. apply col_le_trans. Qed.

#[export] Instance desc_le_total col : Total (desc_le col).
Proof. intros r1 r2. apply col_le_total. Qed.

#[export] Instance desc_le_trans col : Transitive (desc_le col).
Proof. intros r1 r2 r3 H12 H23. unfold desc_le in *. by etrans. Qed.

Lemma strictly_before_le col x y : strictly_before col x y → asc_le col x y.
Proof.
  unfold strictly_before, asc_le. intros Hlt.
  by destruct (col_le_total (getattr x col) (getattr y col)).
Qed.

Lemma strictly_before_trans col x y z :
  strictly_before col x y → strictly_before col y z → strictly_before col x z.
Proof.
  intros Hxy Hyz Hzx. apply Hyz.
  trans (getattr x col); [done|]. by apply (strictly_before_le col x y).
Qed.

(** Three rows in strictly increasing order of [col] have one descending
    arrangement. *)
Lemma order_by_desc_three col rows a b c :
  rows ≡ₚ [a; b; c] →
  strictly_before col a b → strictly_before col b c →
  order_by_desc col rows = [c; b; a].
Proof.
  intros Hperm Hab Hbc.
  pose proof (strictly_before_trans col a b c Hab Hbc) as Hac.
  apply (StronglySorted_unique_strong (desc_le col)).
  - intros x1 x2 Hx1 Hx2 H12 H21. unfold desc_le in *.
    assert (Hx1' : x1 ∈ [c; b; a]).
    { revert Hx1. unfold order_by_desc.
      rewrite merge_sort_Permutation, Hperm. set_solver. }
    unfold strictly_before in *. set_unfold. naive_solver.
  - apply StronglySorted_merge_sort; apply _.
  - repeat constructor; by apply (strictly_before_le col).
  - unfold order_by_desc. rewrite merge_sort_Permutation, Hperm.
    change [c; b; a] with (rev [a; b; c]). apply Permutation_rev.
Qed.

(** C8. [get_all_news] returns all the news rows, each one's publishedAt
    at or after that of every row listed later, and [get_recent_news] with
    a limit returns the first [limit] rows of that same list.  Over three
    news rows with distinct publishedAt, whatever their order in the
    table, the limit 2 gives exactly the two most recent, newest first. *)
Theorem news_newest_first db n :
  get_all_news db ≡ₚ query News db
  ∧ StronglySorted (desc_le "publishedAt") (get_all_news db)
  ∧ get_recent_news db n = take n (get_all_news db)
  ∧ ∀ a b c,
      query News db ≡ₚ [a; b; c] →
      strictly_before "publishedAt" a b →
      strictly_before "publishedAt" b c →
      get_all_news db = [c; b; a] ∧ get_recent_news db 2 = [c; b].
Proof.
  unfold get_all_news, get_recent_news, limit. split_and!.
  - apply merge_sort_Permutation.
  - apply StronglySorted_merge_sort; apply _.
  - done.
  - intros a b c Hperm Hab Hbc.
    by rewrite (order_by_desc_three "publishedAt" _ a b c).
Qed.

End Ordering.

(** ** Members grouped by degree level *)

Section Grouping.
Context {engine : Storage}.

Lemma spec_bucket_in m : spec_bucket m ∈ buckets.
Proof.
  unfold spec_bucket. cbv zeta.
  repeat case_decide; repeat case_match; try done; unfold buckets; set_solver.
Qed.

Lemma group_member_append grouped m :
  five_keys grouped → group_member grouped m = append_to (spec_bucket m) m grouped.
Proof.
  intros Hkeys. unfold group_member, spec_bucket. cbv zeta.
  case_decide; [done|].
  set (deg := lower (or_empty (getattr m "degree"))).
  destruct (decide (is_Some (grouped !! deg))) as [Hin|Hin],
    (decide (deg ∈ buckets)) as [Hb|Hb].
  - done.
  - by apply Hkeys in Hin.
  - by apply Hkeys in Hb.
  - by repeat case_decide; repeat case_match.
Qed.

Lemma append_to_keys key m grouped l :
  five_keys grouped → grouped !! key = Some l →
  append_to key m grouped = Some (<[key := l ++ [m]]> grouped)
  ∧ five_keys (<[key := l ++ [m]]> grouped).
Proof.
  intros Hkeys Hl. unfold append_to. rewrite Hl. split; [done|].
  intros k. destruct (decide (k = key)) as [->|Hne].
  - rewrite lookup_insert_eq. split; [intros _; by apply Hkeys|done].
  - rewrite lookup_insert_ne by done. apply Hkeys.
Qed.

(** The loop appends each member to the bucket the specification names,
    and never meets a missing key. *)
Lemma group_members_spec members :
  ∀ grouped, five_keys grouped →
    ∃ grouped', group_members grouped members = Some grouped'
      ∧ five_keys grouped'
      ∧ ∀ b, grouped' !! b
             = (λ l, l ++ filter (λ m, spec_bucket m = b) members) <$> grouped !! b.
Proof.
  induction members as [|m members IH]; intros grouped Hkeys; cbn [group_members].
  - exists grouped. split_and!; [done..|].
    intros b. destruct (grouped !! b); simpl; [|done]. by rewrite app_nil_r.
  - rewrite group_member_append by done.
    destruct (proj2 (Hkeys (spec_bucket m)) (spec_bucket_in m)) as [l Hl].
    destruct (append_to_keys _ m _ _ Hkeys Hl) as [-> Hkeys'].
    cbn [mbind option_bind].
    destruct (IH _ Hkeys') as (grouped' & -> & Hkeys'' & Hlook).
    exists grouped'. split_and!; [done..|].
    intros b. rewrite Hlook, filter_cons.
    destruct (decide (spec_bucket m = b)) as [<-|Hne].
    + rewrite lookup_insert_eq, Hl. simpl. by rewrite <-app_assoc.
    + by rewrite lookup_insert_ne.
Qed.

Lemma five_keys_initial :
  five_keys (list_to_map [ ("masters", []); ("bachelors", []); ("phd", []);
                            ("other", []); ("alumni", []) ]).
Proof.
  intros k. split.
  - intros [l Hl]. apply elem_of_list_to_map_2, (list_elem_of_fmap_2 fst) in Hl.
    exact Hl.
  - intros Hk. unfold buckets in Hk. set_unfold.
    destruct Hk as [->|[->|[->|[->|[->|[]]]]]]; by eexists.
Qed.

Lemma empty_initial b :
  b ∈ buckets →
  (list_to_map [ ("masters", []); ("bachelors", []); ("phd", []);
                 ("other", []); ("alumni", []) ] : gmap string (list row)) !! b
    = Some [].
Proof.
  intros Hb. unfold buckets in Hb. set_unfold.
  by destruct Hb as [->|[->|[->|[->|[->|[]]]]]].
Qed.

(** The dict returned holds, under each of the five names, the members the
    specification sends there, in the order of the fetch. *)
Lemma get_members_by_degree_level_filter db :
  ∃ grouped, get_members_by_degree_level db = Some grouped
    ∧ five_keys grouped
    ∧ ∀ b, b ∈ buckets →
        grouped !! b = Some (filter (λ m, spec_bucket m = b) (get_members db)).
Proof.
  unfold get_members_by_degree_level, get_members. cbv zeta.
  destruct (group_members_spec (order_by_asc "name" (query Member db)) _
              five_keys_initial) as (grouped & -> & Hkeys & Hlook).
  exists grouped. split_and!; [done..|].
  intros b Hb. by rewrite Hlook, empty_initial.
Qed.

Lemma StronglySorted_sublist {A} (R : relation A) (l1 l2 : list A) :
  l1 `sublist_of` l2 → StronglySorted R l2 → StronglySorted R l1.
Proof.
  induction 1 as [|x l1 l2 Hsub IH|x l1 l2 Hsub IH]; intros Hs; [done|..].
  - apply StronglySorted_inv in Hs as [Hs Hx]. constructor; [by apply IH|].
    apply Forall_forall. intros y Hy. apply (proj1 (Forall_forall _ _) Hx).
    by eapply sublist_subseteq.
  - apply StronglySorted_inv in Hs as [Hs _]. by apply IH.
Qed.

(** Filtering a list by each key of a duplicate-free list that covers the
    values of [f] splits the list. *)
Lemma concat_filter_Permutation {A} (f : A → string) (ks : list string) (l : list A) :
  NoDup ks → Forall (λ x, f x ∈ ks) l →
  concat ((λ k, filter (λ x, f x = k) l) <$> ks) ≡ₚ l.
Proof.
  intros Hnd. revert l. induction Hnd as [|k ks Hk Hnd IH]; intros l Hcover.
  - destruct l as [|x l]; [done|]. apply Forall_cons in Hcover as [Hx _].
    by apply elem_of_nil in Hx.
  - cbn [fmap list_fmap concat].
    etrans; [|apply (filter_app_complement (λ x, f x = k) l)].
    apply Permutation_app_head.
    etrans; [|apply (IH (filter (λ x, ¬ f x = k) l))].
    + apply reflexive_eq. f_equal. apply list_fmap_ext. intros i k' Hk'.
      symmetry. apply list_filter_filter_l. intros x Hx1 Hx2.
      apply Hk. rewrite <-Hx2, Hx1. by eapply list_elem_of_lookup_2.
    + apply Forall_forall. intros x [Hx Hin]%list_elem_of_filter.
      apply (proj1 (Forall_forall _ _) Hcover) in Hin.
      apply elem_of_cons in Hin as [?|?]; done.
Qed.

(** C2. [get_members_by_degree_level] returns a dict which, under each
    of the five bucket names, holds exactly the members that the
    specification's precedence (alumni status first; then a degree that is
    literally a bucket name; then "phd", "ph.d", "doctor"; then the
    prefixes "master" and "bachelor"; otherwise "other") sends to that
    bucket, in the order of the initial fetch, which is ascending by name.
    A member with an empty or null degree whose status is not alumni lands
    in "other". *)
Theorem members_grouped_by_precedence db :
  ∃ grouped,
    get_members_by_degree_level db = Some grouped
    ∧ (∀ b, b ∈ buckets →
         grouped !! b = Some (filter (λ m, spec_bucket m = b) (get_members db)))
    ∧ StronglySorted (asc_le "name") (get_members db)
    ∧ (∀ b l, grouped !! b = Some l →
         l `sublist_of` get_members db ∧ StronglySorted (asc_le "name") l)
    ∧ (∀ m, or_empty (getattr m "degree") = EmptyString →
            lower (or_empty (getattr m "status")) ≠ "alumni" →
            spec_bucket m = "other").
Proof.
  destruct (get_members_by_degree_level_filter db) as (grouped & Hg & Hkeys & Hb).
  assert (Hsorted : StronglySorted (asc_le "name") (get_members db)).
  { apply StronglySorted_merge_sort; apply _. }
  exists grouped. split_and!; [done..| |].
  - intros b l Hl.
    assert (b ∈ buckets) as Hin by (apply Hkeys; by eexists).
    rewrite (Hb b Hin) in Hl. injection Hl as <-.
    split; [apply sublist_filter|].
    eapply StronglySorted_sublist; [apply sublist_filter|done].
  - intros m Hdeg Hst. unfold spec_bucket. cbv zeta. rewrite Hdeg.
    by rewrite decide_False by done.
Qed.

(** C10. For every member table, the empty one included, the dict
    returned by [get_members_by_degree_level] has exactly the five keys
    "masters", "bachelors", "phd", "other", "alumni"; the concatenation of
    the five lists is a permutation of the member table, and a member of
    the table is in the list of one bucket only.  On an empty table the
    five lists are empty. *)
Theorem members_grouped_five_buckets db :
  ∃ grouped,
    get_members_by_degree_level db = Some grouped
    ∧ dom grouped = list_to_set buckets
    ∧ concat (bucket_lists grouped) ≡ₚ query Member db
    ∧ (∀ m b l, m ∈ query Member db → grouped !! b = Some l →
         m ∈ l ↔ b = spec_bucket m)
    ∧ (query Member db = [] → ∀ b, b ∈ buckets → grouped !! b = Some []).
Proof.
  destruct (get_members_by_degree_level_filter db) as (grouped & Hg & Hkeys & Hb).
  assert (Hperm : get_members db ≡ₚ query Member db)
    by apply merge_sort_Permutation.
  exists grouped. split_and!; [done|..].
  - apply set_eq. intros k. rewrite elem_of_dom, elem_of_list_to_set. apply Hkeys.
  - rewrite <-Hperm. unfold bucket_lists.
    rewrite <-(concat_filter_Permutation spec_bucket buckets (get_members db)).
    + apply reflexive_eq. f_equal. apply list_fmap_ext. intros i b Hi.
      by rewrite Hb by (by eapply list_elem_of_lookup_2).
    + by apply (bool_decide_unpack _); vm_compute.
    + apply Forall_forall. intros m _. apply spec_bucket_in.
  - intros m b l Hm Hl.
    assert (b ∈ buckets) as Hin by (apply Hkeys; by eexists).
    rewrite (Hb b Hin) in Hl. injection Hl as <-.
    rewrite list_elem_of_filter, Hperm. naive_solver.
  - intros Hnil b Hin. rewrite (Hb b Hin).
    rewrite Hnil in Hperm. apply Permutation_nil_r in Hperm. by rewrite Hperm.
Qed.

End Grouping.

(** ** The specification's examples, run on the reference engine *)

(** Closes a decidable closed goal by evaluation. *)
Ltac by_evaluation := apply (bool_decide_unpack _); vm_compute; exact I.

(** C8 on three news rows published at 3, 7 and 5, stored in that order. *)
Lemma news_newest_first_example :
  get_all_news (engine := Reference.storage) lab_db = [news_7; news_5; news_3]
  ∧ get_recent_news (engine := Reference.storage) lab_db 2 = [news_7; news_5].
Proof.
  destruct (news_newest_first (engine := Reference.storage) lab_db 2)
    as (_ & _ & _ & Hthree).
  apply (Hthree news_3 news_5 news_7).
  - apply perm_skip, perm_swap.
  - unfold strictly_before. by_evaluation.
  - unfold strictly_before. by_evaluation.
Defined.

(** C2 on the specification's example: Bo is in alumni whatever the
    degree, Amy is in phd, Cy in other; a null degree lands in other. *)
Lemma members_grouped_by_precedence_example :
  ∃ grouped,
    get_members_by_degree_level (engine := Reference.storage) lab_db = Some grouped
    ∧ grouped !! "alumni" = Some [bo]
    ∧ grouped !! "phd" = Some [amy]
    ∧ grouped !! "other" = Some [cy]
    ∧ grouped !! "masters" = Some []
    ∧ grouped !! "bachelors" = Some []
    ∧ spec_bucket {[ "name" := VStr "Dee"; "degree" := VNone;
                     "status" := VStr "current" ]} = "other".
Proof.
  destruct (members_grouped_by_precedence (engine := Reference.storage) lab_db)
    as (grouped & Hg & Hb & _ & _ & Hnull).
  exists grouped. split; [exact Hg|].
  rewrite !Hb by (unfold buckets; literal_keys).
  split_and!; [by vm_compute..|].
  apply Hnull; [by vm_compute|by_evaluation].
Defined.

(** C10 on the three members above and on an empty member table. *)
Lemma members_grouped_five_buckets_example :
  (∃ grouped,
     get_members_by_degree_level (engine := Reference.storage) lab_db = Some grouped
     ∧ dom grouped = list_to_set buckets
     ∧ concat (bucket_lists grouped) ≡ₚ [cy; amy; bo]
     ∧ ∀ l, grouped !! "phd" = Some l → bo ∉ l)
  ∧ (∃ grouped,
       get_members_by_degree_level (engine := Reference.storage) empty_session
         = Some grouped
       ∧ dom grouped = list_to_set buckets
       ∧ Forall (λ b, grouped !! b = Some []) buckets).
Proof.
  split.
  - destruct (members_grouped_five_buckets (engine := Reference.storage) lab_db)
      as (grouped & Hg & Hdom & Hperm & Hone & _).
    exists grouped. split_and!; [exact Hg|exact Hdom|exact Hperm|].
    intros l Hl Hin.
    apply (Hone bo "phd" l) in Hin; [discriminate Hin| |exact Hl].
    apply list_elem_of_further, list_elem_of_further, list_elem_of_here.
  - destruct (members_grouped_five_buckets (engine := Reference.storage) empty_session)
      as (grouped & Hg & Hdom & _ & _ & Hempty).
    exists grouped. split_and!; [exact Hg|exact Hdom|].
    apply Forall_forall. intros b Hb. by apply Hempty.
Defined.

(** C3 on the example session: the id zz is nowhere, the ids p1, n5, m2
    and a1 are each deleted twice. *)
Lemma not_found_is_none_or_false_example :
  approve_user lab_db "zz" = (None, lab_db)
  ∧ update_publication lab_db "zz" publication_order_2
      = (None, lab_db)
  ∧ get_news_by_id lab_db "zz" = None
  ∧ delete_member lab_db "zz" = (false, lab_db)
  ∧ update_research_area lab_db "zz"
      ResearchAreaCreate.empty = (None, lab_db)
  ∧ get_lab_info lab_db = None
  ∧ (delete_publication lab_db "p1").1 = true
  ∧ (delete_publication (delete_publication lab_db "p1").2 "p1").1 = false
  ∧ (delete_news lab_db "n5").1 = true
  ∧ (delete_news (delete_news lab_db "n5").2 "n5").1 = false
  ∧ (delete_member lab_db "m2").1 = true
  ∧ (delete_member (delete_member lab_db "m2").2 "m2").1 = false
  ∧ (delete_research_area lab_db "a1").1 = true
  ∧ (delete_research_area (delete_research_area lab_db "a1").2 "a1").1 = false.
Proof.
  destruct (not_found_is_none_or_false lab_db "zz")
    as (HU & HP & HN & HM & HA & HL & _).
  destruct (not_found_is_none_or_false lab_db "p1")
    as (_ & _ & _ & _ & _ & _ & DP & _).
  destruct (not_found_is_none_or_false lab_db "n5")
    as (_ & _ & _ & _ & _ & _ & _ & DN & _).
  destruct (not_found_is_none_or_false lab_db "m2")
    as (_ & _ & _ & _ & _ & _ & _ & _ & DM & _).
  destruct (not_found_is_none_or_false lab_db "a1")
    as (_ & _ & _ & _ & _ & _ & _ & _ & _ & DA).
  assert (Habsent : ∀ m, id_absent m "zz" lab_db).
  { intros m. unfold id_absent. destruct m; by_evaluation. }
  destruct (HP (Habsent _)) as (HP1 & _ & _).
  destruct (HN (Habsent _)) as (HN1 & _ & _).
  destruct (HM (Habsent _)) as (_ & HM2).
  destruct (HA (Habsent _)) as (_ & HA2 & _).
  destruct DP as [DP1 DP2]; [unfold id_present; by_evaluation|].
  destruct DN as [DN1 DN2]; [unfold id_present; by_evaluation|].
  destruct DM as [DM1 DM2]; [unfold id_present; by_evaluation|].
  destruct DA as [DA1 DA2]; [unfold id_present; by_evaluation|].
  split_and!.
  - exact (HU (Habsent _)).
  - exact (HP1 _).
  - exact HN1.
  - exact HM2.
  - exact (HA2 _).
  - apply HL. unfold id_absent. by_evaluation.
  - exact DP1.
  - by rewrite DP2.
  - exact DN1.
  - by rewrite DN2.
  - exact DM1.
  - by rewrite DM2.
  - exact DA1.
  - by rewrite DA2.
Defined.

(** C4 on the example session: empty updates, a member update that sets
    only the bio, a publication update that sets only the order. *)
Lemma partial_update_keeps_absent_fields_example :
  update_member lab_db "m1" MemberUpdate.empty
    = (Some amy, lab_db)
  ∧ update_publication lab_db "p1" PublicationCreate.empty
    = (Some publication_1, lab_db)
  ∧ (∃ r', (update_member lab_db "m1" bio_only).1 = Some r'
           ∧ r' !! "name" = Some (VStr "Amy")
           ∧ r' !! "degree" = Some (VStr "PhD")
           ∧ r' !! "status" = Some (VStr "current"))
  ∧ (∃ r', (update_publication lab_db "p1"
              publication_order_2).1 = Some r'
           ∧ r' !! "title" = Some (VStr "On maps")).
Proof.
  destruct (partial_update_keeps_absent_fields lab_db "m1" amy) as (_ & _ & HM & _).
  destruct (partial_update_keeps_absent_fields lab_db "p1" publication_1) as (HP & _).
  assert (find_by_id Member "m1" lab_db = Some amy) as Hm1
    by (vm_compute; reflexivity).
  assert (find_by_id Publication "p1" lab_db = Some publication_1) as Hp1
    by (vm_compute; reflexivity).
  destruct (HM Hm1) as [HMk HMe]. destruct (HP Hp1) as [HPk HPe].
  split_and!; [exact HMe|exact HPe|..].
  - destruct (HMk bio_only) as (r' & Hr' & _ & Hk & _).
    exists r'. split; [exact Hr'|].
    rewrite !Hk by (vm_compute; reflexivity).
    split_and!; vm_compute; reflexivity.
  - destruct (HPk publication_order_2) as (r' & Hr' & _ & Hk & _).
    exists r'. split; [exact Hr'|].
    rewrite Hk by (split; [vm_compute; reflexivity|discriminate]).
    vm_compute; reflexivity.
Defined.

(** C5 on an empty database: the first call creates the row, the same
    call again changes nothing, a later call updates the phone only. *)
Lemma create_or_update_lab_info_idempotent_example :
  create_or_update_lab_info (engine := Reference.storage) lab_created.2 lab_info_first
    = lab_created
  ∧ query LabInfo lab_created.2 = [lab_created.1]
  ∧ lab_created.1 !! "id" = Some (VStr "lab_settings")
  ∧ lab_created.1 !! "labName" = Some (VStr "GILab")
  ∧ ∃ r', create_or_update_lab_info (engine := Reference.storage)
            lab_created.2 lab_info_phone = (r', store LabInfo [r'] lab_created.2)
          ∧ r' !! "piPhone" = Some (VStr "555-0100")
          ∧ r' !! "labName" = Some (VStr "GILab").
Proof.
  destruct (create_or_update_lab_info_idempotent (engine := Reference.storage)
              empty_session lab_info_first) as (Hidem & Hincl & _ & Hcreate).
  destruct Hcreate as (Hrow & Hq & _); [vm_compute; reflexivity|].
  fold lab_created in Hidem, Hincl, Hrow, Hq.
  destruct (create_or_update_lab_info_idempotent (engine := Reference.storage)
              lab_created.2 lab_info_phone) as (_ & Hincl' & Hupdate & _).
  destruct (Hupdate lab_created.1) as (r' & Hr' & _ & Hk & _ & _);
    [vm_compute; reflexivity|].
  cbn [fst] in Hr'. apply (inj Some) in Hr'.
  split_and!.
  - exact Hidem.
  - exact Hq.
  - rewrite Hrow. vm_compute; reflexivity.
  - rewrite Hrow. vm_compute; reflexivity.
  - exists r'. rewrite <-Hr'. split_and!.
    + vm_compute; reflexivity.
    + eapply lookup_weaken; [|exact Hincl']. vm_compute; reflexivity.
    + rewrite Hr', Hk by (vm_compute; reflexivity). rewrite Hrow. vm_compute; reflexivity.
Defined.

(** C6 on an empty database and a sequence of five calls. *)
Lemma lab_info_singleton_preserved_example :
  lab_info_singleton
    (lab_run (engine := Reference.storage) empty_session
       [ GetLabInfo; CreateOrUpdateLabInfo lab_info_first; GetLabInfo;
         CreateOrUpdateLabInfo lab_info_phone; CreateOrUpdateLabInfo LabInfoCreate.empty ])
  ∧ ∃ r,
      query LabInfo
        (lab_run (engine := Reference.storage) empty_session
           [ CreateOrUpdateLabInfo lab_info_first; CreateOrUpdateLabInfo lab_info_first ])
        = [r]
      ∧ getattr r "id" = VStr "lab_settings".
Proof.
  destruct (lab_info_singleton_preserved (engine := Reference.storage) empty_session
              [ GetLabInfo; CreateOrUpdateLabInfo lab_info_first; GetLabInfo;
                CreateOrUpdateLabInfo lab_info_phone;
                CreateOrUpdateLabInfo LabInfoCreate.empty ]
              (or_introl eq_refl)) as [Hinv Htwice].
  split; [exact Hinv|].
  destruct (Htwice lab_info_first) as (r & _ & Hq & Hid).
  exists r. split; [exact Hq|exact Hid].
Defined.

(** * Further properties of [crud.py] *)

(** ** Users *)

Section Users.
Context {engine : Storage}.

Lemma first_filter_eq_app col v rows rows' :
  first (filter_eq col v (rows ++ rows'))
    = match first (filter_eq col v rows) with
      | Some r => Some r
      | None => first (filter_eq col v rows')
      end.
Proof.
  unfold first, filter_eq. rewrite filter_app.
  by destruct (filter _ rows).
Qed.

Lemma first_filter_eq_singleton col v r :
  first (filter_eq col v [r]) = if decide (getattr r col = v) then Some r else None.
Proof. unfold first, filter_eq. rewrite filter_cons, filter_nil. by case_decide. Qed.

Lemma filter_eq_snoc col v rows r :
  filter_eq col v (rows ++ [r])
    = filter_eq col v rows ++ if decide (getattr r col = v) then [r] else [].
Proof.
  unfold filter_eq. rewrite filter_app, filter_cons, filter_nil. by case_decide.
Qed.

(** X1. Looking a user up by email after [create_user], when no stored
    user has the new user's email: the new user is found under its email,
    every other email finds what it found before, and the new user joins
    the end of the pending list. *)
Theorem create_user_then_get_user_by_email db user hashed_password :
  get_user_by_email db (UserCreate.email user) = None →
  let created := create_user db user hashed_password in
  get_user_by_email created.2 (UserCreate.email user) = Some created.1
  ∧ (∀ email, email ≠ UserCreate.email user →
       get_user_by_email created.2 email = get_user_by_email db email)
  ∧ get_all_pending_users created.2 = get_all_pending_users db ++ [created.1].
Proof.
  intros Hnone created.
  assert (Hemail : getattr created.1 "email" = VStr (UserCreate.email user)).
  { unfold getattr, created, create_user.
    by rewrite (add_lookup_Some _ _ _ "email" (VStr (UserCreate.email user)))
      by (apply kwargs_lookup; literal_keys). }
  assert (Hpending : getattr created.1 "isApproved" = VBool false).
  { unfold getattr, created, create_user.
    by rewrite (add_lookup_Some _ _ _ "isApproved" (VBool false))
      by (apply kwargs_lookup; literal_keys). }
  assert (Hq : query User created.2 = query User db ++ [created.1])
    by apply query_add_eq.
  unfold get_user_by_email in Hnone |- *. unfold get_all_pending_users.
  rewrite Hq. split_and!.
  - rewrite first_filter_eq_app, first_filter_eq_singleton, Hemail, Hnone.
    by rewrite decide_True.
  - intros email Hne.
    rewrite first_filter_eq_app, first_filter_eq_singleton, Hemail.
    assert (VStr (UserCreate.email user) ≠ VStr email) as Hv.
    { intros Hv. apply Hne. by injection Hv. }
    rewrite decide_False by exact Hv. by case_match.
  - by rewrite filter_eq_snoc, Hpending, decide_True.
Qed.

(** X2. [approve_user] on the id of a stored user returns that user with
    isApproved set and nothing else changed, and stores it; afterwards no
    user under that id is pending, users under other ids and the other
    tables are as before, and approving again changes nothing. *)
Theorem approve_user_approves db user_id db_user :
  find_by_id User user_id db = Some db_user →
  let approved := approve_user db user_id in
  approved.1 = Some (<["isApproved" := VBool true]> db_user)
  ∧ find_by_id User user_id approved.2 = approved.1
  ∧ Forall (λ u, getattr u "id" ≠ VStr user_id) (get_all_pending_users approved.2)
  ∧ others_unchanged user_id (query User db) (query User approved.2)
  ∧ (∀ m, m ≠ User → query m approved.2 = query m db)
  ∧ approve_user approved.2 user_id = approved.
Proof.
  intros Hr approved.
  pose proof (find_by_id_pk _ _ _ _ Hr) as Hpk.
  assert (Happ : approved
    = (Some (<["isApproved" := VBool true]> db_user),
       update User (VStr user_id) (<["isApproved" := VBool true]>) db)).
  { unfold approved, approve_user. unfold find_by_id in Hr. by rewrite Hr, Hpk. }
  assert (Hfound : find_by_id User user_id approved.2 = approved.1).
  { rewrite Happ. cbn [fst snd]. apply find_by_id_update; [done|].
    unfold getattr. by rewrite lookup_insert_ne. }
  rewrite Happ in Hfound |- *. cbn [fst snd] in Hfound |- *.
  split_and!; [done|done| | | |].
  - unfold get_all_pending_users, filter_eq. rewrite query_update_eq.
    apply Forall_forall. intros u [Hu Hin]%list_elem_of_filter.
    apply list_elem_of_fmap in Hin as (x & -> & _).
    case_decide; [|done].
    unfold getattr in Hu. by rewrite lookup_insert_eq in Hu.
  - apply update_others_unchanged.
  - intros m Hm. by apply query_update_ne.
  - unfold approve_user. unfold find_by_id in Hfound. rewrite Hfound.
    unfold getattr at 1. rewrite lookup_insert_ne by done. fold (getattr db_user "id").
    rewrite Hpk, insert_insert_eq. f_equal.
    apply update_fixed. rewrite query_update_eq.
    apply Forall_fmap, Forall_forall. intros x _. simpl.
    case_decide; intros Hid; [by rewrite insert_insert_eq|done].
Qed.

End Users.

(** ** Publications *)

Section Publications.
Context {engine : Storage}.

Lemma filter_none {A} (P : A → Prop) `{!∀ x, Decision (P x)} (l : list A) :
  Forall (λ x, ¬ P x) l → filter P l = [].
Proof.
  induction 1 as [|x l Hx _ IH]; [done|]. by rewrite filter_cons, decide_False.
Qed.

Lemma filter_all {A} (P : A → Prop) `{!∀ x, Decision (P x)} (l : list A) :
  Forall P l → filter P l = l.
Proof.
  induction 1 as [|x l Hx _ IH]; [done|]. by rewrite filter_cons, decide_True, IH.
Qed.

Lemma only_order_dict order :
  PublicationCreate.dict_exclude_unset (only_order order) = {[ "order" := VInt order ]}.
Proof. done. Qed.

Lemma setattrs_singleton k v obj : setattrs {[ k := v ]} obj = <[k := v]> obj.
Proof.
  rewrite setattrs_union. by rewrite <-insert_union_singleton_l.
Qed.

(** X3. [update_publication_order] and [update_publication] with an input
    that sets only "order" are the same operation: same result, same
    session.  On a stored id the row comes back with displayOrder set to
    the order, and that row is what is stored; no attribute named "order"
    is ever written. *)
Theorem update_publication_order_is_update_publication db publication_id order :
  let updated := update_publication_order db publication_id order in
  updated = update_publication db publication_id (only_order order)
  ∧ updated.1
      = <["displayOrder" := VInt order]> <$> find_by_id Publication publication_id db
  ∧ find_by_id Publication publication_id updated.2 = updated.1.
Proof.
  intros updated. subst updated.
  unfold update_publication_order, update_publication.
  fold (find_by_id Publication publication_id db).
  destruct (find_by_id Publication publication_id db) as [r|] eqn:Hr; cbn [fst snd].
  - rewrite only_order_dict, lookup_singleton_eq, delete_singleton_eq.
    rewrite insert_empty, setattrs_singleton.
    rewrite (update_ext _ _ (setattrs _) (<["displayOrder" := VInt order]>))
      by apply setattrs_singleton.
    split_and!; [done..|].
    rewrite (find_by_id_pk _ _ _ _ Hr). apply find_by_id_update; [done|].
    unfold getattr. rewrite lookup_insert_ne by done. by apply find_by_id_pk in Hr.
  - by split_and!.
Qed.

(** X4. The author rows [create_publication] adds all reference the new
    publication: when no stored author referenced its id before, the
    authors of the returned publication are exactly the input authors, as
    many and in the same order, with their names; and when no input author
    supplies an order, their display orders count up from 0.  No other
    table than the publications and the authors is touched. *)
Theorem create_publication_attaches_authors db publication author_id authors_data :
  let created := create_publication db publication author_id authors_data in
  let pid := getattr created.1 "id" in
  Forall (λ r, getattr r "publicationId" ≠ pid) (query Author db) →
  let attached := filter_eq "publicationId" pid (query Author created.2) in
  (λ r, getattr r "name") <$> attached
    = (λ a, VStr (AuthorCreate.name a)) <$> authors_data
  ∧ (Forall (λ a, AuthorCreate.order a = Unset) authors_data →
       (λ r, getattr r "displayOrder") <$> attached
         = (λ i, VInt (Z.of_nat i)) <$> seq 0 (length authors_data))
  ∧ ∀ m, m ≠ Publication → m ≠ Author → query m created.2 = query m db.
Proof.
  cbv zeta. unfold create_publication, pop. cbv beta iota zeta.
  set (kw := <["authorId" := _]> _).
  change (add Publication kw db)
    with ((add Publication kw db).1, (add Publication kw db).2).
  cbv beta iota. cbn [fst snd].
  set (p := (add Publication kw db).1). set (db1 := (add Publication kw db).2).
  set (pid := getattr p "id"). intros Hfresh.
  set (attached := filter_eq "publicationId" pid _).
  destruct (add_authors_spec pid authors_data db1 0%nat) as (rows & Hq & Hlen & Hrows).
  assert (Hold : query Author db1 = query Author db) by (by apply query_add_ne).
  assert (Hatt : attached = rows).
  { subst attached. rewrite Hq, Hold. unfold filter_eq. rewrite filter_app.
    rewrite (filter_none _ (query Author db)) by exact Hfresh. cbn [app].
    apply filter_all, Forall_forall.
    intros r (i & Hi)%list_elem_of_lookup.
    destruct (lookup_lt_is_Some_2 authors_data i) as [a Ha].
    { rewrite <-Hlen. by eapply lookup_lt_Some. }
    destruct (Hrows i a Ha) as (r' & Hr' & _ & _ & Hp).
    rewrite Hi in Hr'. injection Hr' as <-. unfold getattr. by rewrite Hp. }
  rewrite Hatt. split_and!.
  - apply list_eq. intros i. rewrite !list_lookup_fmap.
    destruct (authors_data !! i) as [a|] eqn:Ha.
    + destruct (Hrows i a Ha) as (r & -> & _ & Hn & _).
      simpl. unfold getattr. by rewrite Hn.
    + apply lookup_ge_None in Ha. rewrite <-Hlen in Ha.
      apply lookup_ge_None in Ha. by rewrite Ha.
  - intros Hunset. apply list_eq. intros i. rewrite !list_lookup_fmap.
    destruct (authors_data !! i) as [a|] eqn:Ha.
    + destruct (Hrows i a Ha) as (r & -> & Hd & _ & _).
      rewrite lookup_seq_lt by (by eapply lookup_lt_Some).
      simpl. unfold getattr. rewrite Hd.
      by rewrite (proj1 (Forall_lookup _ _) Hunset i a Ha).
    + apply lookup_ge_None in Ha. rewrite lookup_seq_ge by done.
      rewrite <-Hlen in Ha. apply lookup_ge_None in Ha. by rewrite Ha.
  - intros m Hp Ha. rewrite add_authors_other by done. by apply query_add_ne.
Qed.

End Publications.

(** ** Listings *)

Section Listings.
Context {engine : Storage}.

#[export] Instance then_le_total (R1 R2 : relation row)
  `{!RelDecision R1, !Total R1, !Total R2} : Total (then_le R1 R2).
Proof.
  intros a b. unfold then_le.
  destruct (decide (R1 a b)) as [Hab|Hab], (decide (R1 b a)) as [Hba|Hba].
  - destruct (total R2 a b); [left|right]; done.
  - left. done.
  - right. done.
  - by destruct (total R1 a b).
Qed.

#[export] Instance then_le_trans (R1 R2 : relation row)
  `{!Transitive R1, !Transitive R2} : Transitive (then_le R1 R2).
Proof.
  intros a b c [Hab Hab'] [Hbc Hbc']. split; [by trans b|].
  intros Hca. trans b; [apply Hab'|apply Hbc']; by etrans.
Qed.

(** In a sorted list, every row kept by a truncation precedes every row it
    cuts off. *)
Lemma take_precedes_rest (R : relation row) (l : list row) n :
  StronglySorted R l →
  Forall (λ y, Forall (λ x, R x y) (take n l)) (drop n l).
Proof.
  intros Hs. rewrite <-(take_drop n l) in Hs.
  apply Forall_forall. intros y Hy. apply Forall_forall. intros x Hx.
  by eapply StronglySorted_app_1_elem_of.
Qed.

Lemma StronglySorted_take (R : relation row) (l : list row) n :
  StronglySorted R l → StronglySorted R (take n l).
Proof.
  intros Hs. rewrite <-(take_drop n l) in Hs. by eapply StronglySorted_app_1_l.
Qed.

(** X5. [get_recent_publications] returns as many rows as the limit allows
    and the table holds.  They are in order: a row's year is at or after
    the year of every row listed after it, and where two years tie the
    smaller displayOrder comes first.  Together with the rows left out they
    make up the publication table, and every row returned precedes, in that
    order, every row left out. *)
Theorem get_recent_publications_top db n :
  let precedes := then_le (desc_le "year") (asc_le "displayOrder") in
  let recent := get_recent_publications db n in
  length recent = min n (length (query Publication db))
  ∧ StronglySorted precedes recent
  ∧ ∃ rest,
      recent ++ rest ≡ₚ query Publication db
      ∧ Forall (λ y, Forall (λ x, precedes x y) recent) rest.
Proof.
  intros precedes recent. subst recent. unfold get_recent_publications, limit.
  fold precedes. set (sorted := merge_sort precedes (query Publication db)).
  assert (Hperm : sorted ≡ₚ query Publication db) by apply merge_sort_Permutation.
  assert (Hs : StronglySorted precedes sorted).
  { apply StronglySorted_merge_sort; apply _. }
  split_and!.
  - by rewrite length_take, Hperm.
  - by apply StronglySorted_take.
  - exists (drop n sorted). split; [by rewrite take_drop|].
    by apply take_precedes_rest.
Qed.

(** X6. The listings by ascending key, [get_all_publications_with_authors]
    (displayOrder), [get_all_research_projects] (order),
    [get_all_research_areas] (order) and [get_members] (name), each return
    every row of their table exactly once, each row's key at or before the
    key of every row listed after it. *)
Theorem ascending_listings db :
  (get_all_publications_with_authors db ≡ₚ query Publication db
   ∧ StronglySorted (asc_le "displayOrder") (get_all_publications_with_authors db))
  ∧ (get_all_research_projects db ≡ₚ query ResearchProject db
     ∧ StronglySorted (asc_le "order") (get_all_research_projects db))
  ∧ (get_all_research_areas db ≡ₚ query ResearchArea db
     ∧ StronglySorted (asc_le "order") (get_all_research_areas db))
  ∧ (get_members db ≡ₚ query Member db
     ∧ StronglySorted (asc_le "name") (get_members db)).
Proof.
  unfold get_all_publications_with_authors, get_all_research_projects,
    get_all_research_areas, get_members, order_by_asc.
  split_and!; first [apply merge_sort_Permutation
                    |apply StronglySorted_merge_sort; apply _].
Qed.

(** X7. [get_recent_news] returns as many rows as the limit allows and the
    table holds: none for the limit 0, and the whole of [get_all_news] once
    the limit reaches the number of news rows.  Every row it leaves out was
    published at or before every row it returns. *)
Theorem get_recent_news_bounds db n :
  let recent := get_recent_news db n in
  length recent = min n (length (query News db))
  ∧ get_recent_news db 0 = []
  ∧ (∀ k, get_recent_news db (length (query News db) + k) = get_all_news db)
  ∧ ∃ rest,
      recent ++ rest = get_all_news db
      ∧ Forall (λ y, Forall (λ x, desc_le "publishedAt" x y) recent) rest.
Proof.
  intros recent. subst recent. unfold get_recent_news, get_all_news, limit, order_by_desc.
  set (sorted := merge_sort (desc_le "publishedAt") (query News db)).
  assert (Hperm : sorted ≡ₚ query News db) by apply merge_sort_Permutation.
  assert (Hs : StronglySorted (desc_le "publishedAt") sorted).
  { apply StronglySorted_merge_sort; apply _. }
  split_and!.
  - by rewrite length_take, Hperm.
  - done.
  - intros k. apply take_ge. rewrite Hperm. lia.
  - exists (drop n sorted). split; [apply take_drop|].
    by apply take_precedes_rest.
Qed.

End Listings.

(** ** Research areas *)

Section Areas.
Context {engine : Storage}.

Lemma get_research_areas_by_parent_eq db parent_id :
  get_research_areas_by_parent db parent_id
    = order_by_asc "order"
        (filter_eq "parentId" (parent_value parent_id) (query ResearchArea db)).
Proof. by destruct parent_id. Qed.

(** X8. [get_research_areas_by_parent] returns exactly the areas whose
    parentId is the given id, or is NULL when no id is given, each once and
    in ascending order.  The listings of two different parents share no
    row, and every area whose parentId is NULL or a string is in the
    listing of its own parent. *)
Theorem get_research_areas_by_parent_partitions db parent_id :
  let listed := get_research_areas_by_parent db parent_id in
  listed ≡ₚ filter (λ r, getattr r "parentId" = parent_value parent_id)
              (query ResearchArea db)
  ∧ StronglySorted (asc_le "order") listed
  ∧ (∀ parent_id' r,
       parent_id' ≠ parent_id → r ∈ listed →
       r ∉ get_research_areas_by_parent db parent_id')
  ∧ (∀ r, r ∈ query ResearchArea db →
          getattr r "parentId" = parent_value parent_id → r ∈ listed).
Proof.
  intros listed. subst listed.
  assert (Hin : ∀ p r, r ∈ get_research_areas_by_parent db p
            ↔ r ∈ query ResearchArea db ∧ getattr r "parentId" = parent_value p).
  { intros p r. rewrite get_research_areas_by_parent_eq. unfold order_by_asc.
    rewrite merge_sort_Permutation. unfold filter_eq.
    rewrite list_elem_of_filter. tauto. }
  split_and!.
  - rewrite get_research_areas_by_parent_eq. apply merge_sort_Permutation.
  - rewrite get_research_areas_by_parent_eq.
    apply StronglySorted_merge_sort; apply _.
  - intros p' r Hne [_ Hp]%Hin [_ Hp']%Hin. apply Hne.
    rewrite Hp in Hp'. by destruct p', parent_id; simplify_eq.
  - intros r Hr Hp. by apply Hin.
Qed.

Lemma add_find_by_id m kw db id :
  id_absent m id db →
  getattr (add m kw db).1 "id" = VStr id →
  find_by_id m id (add m kw db).2 = Some (add m kw db).1.
Proof.
  intros Habs Hid. unfold find_by_id. rewrite query_add_eq.
  rewrite first_filter_eq_app, first_filter_eq_singleton.
  apply id_absent_find in Habs. unfold find_by_id in Habs. rewrite Habs.
  by rewrite decide_True.
Qed.

Lemma add_find_by_id_other m kw db id id' :
  getattr (add m kw db).1 "id" = VStr id → id' ≠ id →
  find_by_id m id' (add m kw db).2 = find_by_id m id' db.
Proof.
  intros Hid Hne. unfold find_by_id. rewrite query_add_eq.
  rewrite first_filter_eq_app, first_filter_eq_singleton.
  rewrite decide_False by (rewrite Hid; congruence).
  by destruct (first _).
Qed.

Lemma order_by_asc_add col m kw db :
  order_by_asc col (query m (add m kw db).2)
    ≡ₚ (add m kw db).1 :: order_by_asc col (query m db).
Proof.
  unfold order_by_asc. rewrite !merge_sort_Permutation, query_add_eq.
  by rewrite Permutation_app_comm.
Qed.

Lemma area_dict_parentId a :
  ResearchAreaCreate.dict_exclude_unset a !! "parentId"
    = assigned (ResearchAreaCreate.parentId a).
Proof. apply dict_of_lookup; literal_keys. Qed.

(** X9. An area created with a parentId (an id, or None for a root) is
    listed by [get_research_areas_by_parent] under that parent, whose
    listing gains this one row; the listings of the other parents keep their
    rows. *)
Theorem create_research_area_listed db area parent_id :
  ResearchAreaCreate.parentId area = Given parent_id →
  let created := create_research_area db area in
  created.1 ∈ get_research_areas_by_parent created.2 parent_id
  ∧ get_research_areas_by_parent created.2 parent_id
      ≡ₚ created.1 :: get_research_areas_by_parent db parent_id
  ∧ ∀ parent_id', parent_id' ≠ parent_id →
      get_research_areas_by_parent created.2 parent_id'
        ≡ₚ get_research_areas_by_parent db parent_id'.
Proof.
  intros Hgiven created.
  assert (Hp : getattr created.1 "parentId" = parent_value parent_id).
  { unfold getattr, created, create_research_area.
    rewrite (add_lookup_Some _ _ _ "parentId" (parent_value parent_id)); [done|].
    rewrite area_dict_parentId, Hgiven. by destruct parent_id. }
  assert (Hq : query ResearchArea created.2 = query ResearchArea db ++ [created.1])
    by apply query_add_eq.
  assert (Hlist : ∀ p, get_research_areas_by_parent created.2 p
            ≡ₚ (if decide (p = parent_id) then [created.1] else [])
                ++ get_research_areas_by_parent db p).
  { intros p. rewrite !get_research_areas_by_parent_eq. unfold order_by_asc.
    rewrite !merge_sort_Permutation, Hq, filter_eq_snoc, Hp.
    rewrite Permutation_app_comm. apply Permutation_app_tail.
    destruct (decide (p = parent_id)) as [->|Hne]; [by rewrite decide_True|].
    rewrite decide_False; [done|]. intros Heq. apply Hne.
    by destruct p, parent_id; simplify_eq. }
  split_and!.
  - rewrite Hlist, decide_True by done. set_solver.
  - by rewrite Hlist, decide_True.
  - intros p Hne. by rewrite Hlist, decide_False.
Qed.

End Areas.

(** ** Creating and reading back *)

Section CreateRead.
Context {engine : Storage}.

(** X10. Create, then read by id: when the id the new row is given is not
    yet in the table, [get_news_by_id] after [create_news] and
    [get_research_area_by_id] after [create_research_area] return the row
    just created under that id, and what they return under any other id is
    what they returned before. *)
Theorem create_then_get_by_id db id :
  (∀ news author_id,
     let created := create_news db news author_id in
     id_absent News id db → getattr created.1 "id" = VStr id →
     get_news_by_id created.2 id = Some created.1
     ∧ ∀ id', id' ≠ id → get_news_by_id created.2 id' = get_news_by_id db id')
  ∧ (∀ area,
       let created := create_research_area db area in
       id_absent ResearchArea id db → getattr created.1 "id" = VStr id →
       get_research_area_by_id created.2 id = Some created.1
       ∧ ∀ id', id' ≠ id →
           get_research_area_by_id created.2 id' = get_research_area_by_id db id').
Proof.
  split.
  - intros news author_id created Habs Hid. split.
    + by apply (add_find_by_id News).
    + intros id' Hne. by apply (add_find_by_id_other News _ _ id).
  - intros area created Habs Hid. split.
    + by apply (add_find_by_id ResearchArea).
    + intros id' Hne. by apply (add_find_by_id_other ResearchArea _ _ id).
Qed.

Lemma order_by_desc_add col m kw db :
  order_by_desc col (query m (add m kw db).2)
    ≡ₚ (add m kw db).1 :: order_by_desc col (query m db).
Proof.
  unfold order_by_desc. rewrite !merge_sort_Permutation, query_add_eq.
  by rewrite Permutation_app_comm.
Qed.

Lemma news_dict_no_authorId n : NewsCreate.dict_exclude_unset n !! "authorId" = None.
Proof. apply dict_of_lookup_notin. literal_keys. Qed.

Lemma project_dict_no_authorId p :
  ResearchProjectCreate.dict_exclude_unset p !! "authorId" = None.
Proof. apply dict_of_lookup_notin. literal_keys. Qed.

Lemma kw_included (kw dflt : row) : kw ⊆ kw ∪ dflt.
Proof. apply map_union_subseteq_l. Qed.

(** X11. A row created by [create_news], [create_research_project],
    [create_member] or [create_research_area] carries every field the
    input sets, with the value given, and for the first two the author id
    passed beside the input; the listing of its table then holds this row
    and the rows it held before. *)
Theorem create_then_list db :
  (∀ news author_id,
     let created := create_news db news author_id in
     NewsCreate.dict_exclude_unset news ⊆ created.1
     ∧ created.1 !! "authorId" = Some (VStr author_id)
     ∧ get_all_news created.2 ≡ₚ created.1 :: get_all_news db)
  ∧ (∀ project author_id,
       let created := create_research_project db project author_id in
       ResearchProjectCreate.dict_exclude_unset project ⊆ created.1
       ∧ created.1 !! "authorId" = Some (VStr author_id)
       ∧ get_all_research_projects created.2
           ≡ₚ created.1 :: get_all_research_projects db)
  ∧ (∀ member,
       let created := create_member db member in
       MemberCreate.dict_exclude_unset member ⊆ created.1
       ∧ get_members created.2 ≡ₚ created.1 :: get_members db)
  ∧ (∀ area,
       let created := create_research_area db area in
       ResearchAreaCreate.dict_exclude_unset area ⊆ created.1
       ∧ get_all_research_areas created.2 ≡ₚ created.1 :: get_all_research_areas db).
Proof.
  split_and!.
  - intros news author_id created. subst created. unfold create_news. split_and!.
    + rewrite add_obj. etrans; [|apply kw_included].
      apply insert_subseteq, news_dict_no_authorId.
    + apply add_lookup_Some, lookup_insert_eq.
    + apply order_by_desc_add.
  - intros project author_id created. subst created.
    unfold create_research_project. split_and!.
    + rewrite add_obj. etrans; [|apply kw_included].
      apply insert_subseteq, project_dict_no_authorId.
    + apply add_lookup_Some, lookup_insert_eq.
    + apply order_by_asc_add.
  - intros member created. subst created. unfold create_member. split.
    + rewrite add_obj. apply kw_included.
    + apply order_by_asc_add.
  - intros area created. subst created. unfold create_research_area. split.
    + rewrite add_obj. apply kw_included.
    + apply order_by_asc_add.
Qed.

(** X12. After [create_member] the grouping has the new member in the one
    bucket its status and degree select, and every bucket otherwise holds
    the members it held before. *)
Theorem create_member_grouped db member :
  let created := create_member db member in
  ∃ before after,
    get_members_by_degree_level db = Some before
    ∧ get_members_by_degree_level created.2 = Some after
    ∧ Forall (λ b,
        default [] (after !! b)
          ≡ₚ (if decide (spec_bucket created.1 = b) then [created.1] else [])
              ++ default [] (before !! b)) buckets.
Proof.
  intros created.
  destruct (get_members_by_degree_level_filter db) as (before & Hb & _ & Hbefore).
  destruct (get_members_by_degree_level_filter created.2)
    as (after & Ha & _ & Hafter).
  exists before, after. split_and!; [done..|].
  apply Forall_forall. intros b Hin.
  rewrite (Hbefore b Hin), (Hafter b Hin). cbn [default].
  assert (Hperm : get_members created.2 ≡ₚ created.1 :: get_members db)
    by apply order_by_asc_add.
  rewrite Hperm, filter_cons. by case_decide.
Qed.

End CreateRead.

(** ** Deleting and updating, seen through the lookups *)

Section DeleteUpdate.
Context {engine : Storage}.

Lemma find_by_id_delete_other m id id' db :
  id' ≠ id → find_by_id m id' (delete_pk m (VStr id) db) = find_by_id m id' db.
Proof.
  intros Hne. unfold find_by_id, delete_pk. rewrite query_store_eq.
  unfold filter_eq. f_equal. apply list_filter_filter_l.
  intros r -> [=]. done.
Qed.

Lemma delete_pk_ok m id db r :
  find_by_id m id db = Some r →
  delete_ok m id db (true, delete_pk m (getattr r "id") db).
Proof.
  intros Hr. rewrite (find_by_id_pk _ _ _ _ Hr). unfold delete_ok. cbn [fst snd].
  split_and!.
  - split; [intros _|done]. apply first_filter_eq_Some in Hr as [Hin Hid].
    apply Exists_exists. by exists r.
  - apply query_store_eq.
  - apply find_by_id_delete_pk.
  - intros id' Hne. by apply find_by_id_delete_other.
  - intros m' Hne. unfold delete_pk. by apply query_store_ne.
Qed.

Lemma not_found_delete_ok m id db :
  find_by_id m id db = None → delete_ok m id db (false, db).
Proof.
  intros Hr. pose proof Hr as Habs. apply first_filter_eq_None in Habs.
  unfold delete_ok. cbn [fst snd]. split_and!; try done.
  - split; [done|]. intros (r & Hin & Hid)%Exists_exists.
    by apply (proj1 (Forall_forall _ _) Habs) in Hin.
  - symmetry. by apply filter_all.
Qed.

(** X13. [delete_news], [delete_member] and [delete_research_area] return
    True exactly when some row carries the id; they remove the rows under
    that id and no other, keep the order of the rest, and touch no other
    table.  Afterwards the id is not found, and every other id is found
    with the row it had. *)
Theorem delete_removes_only_the_id db id :
  delete_ok News id db (delete_news db id)
  ∧ delete_ok Member id db (delete_member db id)
  ∧ delete_ok ResearchArea id db (delete_research_area db id).
Proof.
  split_and!.
  - unfold delete_news. fold (find_by_id News id db).
    destruct (find_by_id News id db) as [r|] eqn:Hr;
      [by apply delete_pk_ok|by apply not_found_delete_ok].
  - unfold delete_member. fold (find_by_id Member id db).
    destruct (find_by_id Member id db) as [r|] eqn:Hr;
      [by apply delete_pk_ok|by apply not_found_delete_ok].
  - unfold delete_research_area. fold (find_by_id ResearchArea id db).
    destruct (find_by_id ResearchArea id db) as [r|] eqn:Hr;
      [by apply delete_pk_ok|by apply not_found_delete_ok].
Qed.

Lemma first_filter_updated_other v v' f rows :
  v' ≠ v →
  (∀ x, getattr x "id" = v → getattr (f x) "id" = v) →
  first (filter_eq "id" v'
           ((λ x, if decide (getattr x "id" = v) then f x else x) <$> rows))
    = first (filter_eq "id" v' rows).
Proof.
  intros Hne Hf. unfold first, filter_eq.
  induction rows as [|x rows IH]; [done|].
  rewrite fmap_cons, !filter_cons.
  destruct (decide (getattr x "id" = v)) as [Hx|Hx].
  - rewrite !decide_False; [done|congruence|rewrite (Hf x Hx); congruence].
  - by destruct (decide (getattr x "id" = v')).
Qed.

Lemma setattrs_update_read_back m id d db r :
  find_by_id m id db = Some r →
  d !! "id" = None →
  update_read_back m id db d
    (Some (setattrs d r), update m (getattr r "id") (setattrs d) db).
Proof.
  intros Hr Hd. rewrite (find_by_id_pk _ _ _ _ Hr).
  unfold update_read_back. cbn [fst snd]. split_and!.
  - by rewrite Hr, setattrs_union.
  - apply find_by_id_update; [done|].
    rewrite getattr_setattrs_None by done. by apply find_by_id_pk in Hr.
  - intros id' Hne. unfold find_by_id. rewrite query_update_eq.
    apply first_filter_updated_other; [congruence|].
    intros x Hx. by rewrite getattr_setattrs_None.
Qed.

Lemma not_found_update_read_back m id d db :
  find_by_id m id db = None → update_read_back m id db d (None, db).
Proof. intros Hr. unfold update_read_back. cbn [fst snd]. by rewrite Hr. Qed.

(** X14. [update_news], [update_member] and [update_research_area] return
    the stored row overlaid with the fields the input sets (so each of
    those reads with the value given), or None when the id is not stored;
    a lookup of the id afterwards gives that same row, and a lookup of any
    other id gives what it gave before. *)
Theorem update_reads_back db id :
  (∀ news, update_read_back News id db (NewsCreate.dict_exclude_unset news)
             (update_news db id news))
  ∧ (∀ member, update_read_back Member id db (MemberUpdate.dict_exclude_unset member)
                 (update_member db id member))
  ∧ (∀ area, update_read_back ResearchArea id db
               (ResearchAreaCreate.dict_exclude_unset area)
               (update_research_area db id area)).
Proof.
  split_and!.
  - intros news. unfold update_news. fold (find_by_id News id db).
    destruct (find_by_id News id db) as [r|] eqn:Hr.
    + apply setattrs_update_read_back; [done|apply news_dict_no_id].
    + by apply not_found_update_read_back.
  - intros member. unfold update_member. fold (find_by_id Member id db).
    destruct (find_by_id Member id db) as [r|] eqn:Hr.
    + apply setattrs_update_read_back; [done|apply member_dict_no_id].
    + by apply not_found_update_read_back.
  - intros area. unfold update_research_area. fold (find_by_id ResearchArea id db).
    destruct (find_by_id ResearchArea id db) as [r|] eqn:Hr.
    + apply setattrs_update_read_back; [done|apply area_dict_no_id].
    + by apply not_found_update_read_back.
Qed.

(** X15. Two [create_or_update_lab_info] calls in a row: [get_lab_info]
    after each call returns the row that call returned; the second row is
    the first overlaid with the fields of the second input, so a field set
    by both reads as the second gave it and a field set only by the first
    keeps the first's value; and there is still one way to read it, the
    sentinel key. *)
Theorem create_or_update_lab_info_last_write_wins db lab_info1 lab_info2 :
  let first_call := create_or_update_lab_info db lab_info1 in
  let second_call := create_or_update_lab_info first_call.2 lab_info2 in
  get_lab_info first_call.2 = Some first_call.1
  ∧ LabInfoCreate.dict_exclude_unset lab_info1 ⊆ first_call.1
  ∧ second_call.1 = LabInfoCreate.dict_exclude_unset lab_info2 ∪ first_call.1
  ∧ get_lab_info second_call.2 = Some second_call.1
  ∧ getattr second_call.1 "id" = VStr "lab_settings".
Proof.
  intros first_call second_call.
  pose proof (create_or_update_lab_info_stored db lab_info1) as H1.
  pose proof (create_or_update_lab_info_stored first_call.2 lab_info2) as H2.
  fold first_call in H1. fold second_call in H2.
  split_and!; [exact H1|apply create_or_update_lab_info_includes| |exact H2|].
  - subst second_call. unfold create_or_update_lab_info at 1.
    unfold find_by_id in H1. rewrite H1. cbn [fst]. apply setattrs_union.
  - by apply find_by_id_pk in H2.
Qed.

End DeleteUpdate.

(** ** Degrees that only look doctoral *)

Section Doctoral.
Context {engine : Storage}.

Lemma spec_bucket_phd_prefix m c rest :
  lower (or_empty (getattr m "status")) ≠ "alumni" →
  lower (or_empty (getattr m "degree")) = "phd" +:+ String c rest →
  spec_bucket m = "other".
Proof.
  intros Hst Hdeg. unfold spec_bucket. cbv zeta. rewrite Hdeg.
  rewrite decide_False by done.
  rewrite decide_False.
  2:{ unfold buckets. set_unfold. intros H.
      repeat (destruct H as [H|H]; [discriminate H|]). done. }
  rewrite decide_False.
  2:{ set_unfold. intros H.
      repeat (destruct H as [H|H]; [discriminate H|]). done. }
  done.
Qed.

(** X16. The doctoral degrees are matched whole, not by prefix: a member who
    is not an alumnus and whose lowercased degree is "phd" followed by
    anything more (as in "PhD Candidate") is put in "other", and not in
    "phd". *)
Theorem phd_prefix_goes_to_other db m c rest :
  m ∈ query Member db →
  lower (or_empty (getattr m "status")) ≠ "alumni" →
  lower (or_empty (getattr m "degree")) = "phd" +:+ String c rest →
  ∃ grouped other phd,
    get_members_by_degree_level db = Some grouped
    ∧ grouped !! "other" = Some other ∧ m ∈ other
    ∧ grouped !! "phd" = Some phd ∧ m ∉ phd.
Proof.
  intros Hin Hst Hdeg.
  pose proof (spec_bucket_phd_prefix m c rest Hst Hdeg) as Hbucket.
  destruct (get_members_by_degree_level_filter db) as (grouped & Hg & _ & Hb).
  assert (Hm : m ∈ get_members db).
  { unfold get_members, order_by_asc. by rewrite merge_sort_Permutation. }
  exists grouped. do 2 eexists. split_and!; [done| | | |].
  - apply Hb. unfold buckets. literal_keys.
  - by apply list_elem_of_filter.
  - apply Hb. unfold buckets. literal_keys.
  - intros [Hphd _]%list_elem_of_filter. by rewrite Hbucket in Hphd.
Qed.

End Doctoral.

(** ** The further properties on examples *)

(** X1 on a second user, whose email is new. *)
Lemma create_user_then_get_user_by_email_example :
  let created := create_user (engine := Reference.storage) site_db user_lee "hash" in
  get_user_by_email created.2 "lee@u.example" = Some created.1
  ∧ get_user_by_email created.2 "kim@u.example" = Some user_kim
  ∧ get_all_pending_users created.2 = [user_kim; created.1].
Proof.
  destruct (create_user_then_get_user_by_email (engine := Reference.storage)
              site_db user_lee "hash") as (Hnew & Hother & Hpending);
    [vm_compute; reflexivity|].
  split_and!; [exact Hnew| |exact Hpending].
  rewrite Hother by discriminate. vm_compute; reflexivity.
Defined.

(** X2 on the pending user u1. *)
Lemma approve_user_approves_example :
  (approve_user site_db "u1").1 = Some (<["isApproved" := VBool true]> user_kim)
  ∧ get_all_pending_users (approve_user site_db "u1").2 = []
  ∧ approve_user (approve_user site_db "u1").2 "u1" = approve_user site_db "u1".
Proof.
  destruct (approve_user_approves site_db "u1" user_kim)
    as (Hret & _ & Hpending & _ & _ & Hagain); [vm_compute; reflexivity|].
  split_and!; [exact Hret| |exact Hagain].
  vm_compute; reflexivity.
Defined.

(** X4 on the authors A and B, and on two authors that give no order. *)
Lemma create_publication_attaches_authors_example :
  (let created := create_publication (engine := Reference.storage) empty_session
                    publication_order_2 "u1" [author_A; author_B] in
   (λ r, getattr r "name")
     <$> filter_eq "publicationId" (getattr created.1 "id") (query Author created.2)
     = [VStr "A"; VStr "B"])
  ∧ (let created := create_publication (engine := Reference.storage) empty_session
                      publication_order_2 "u1" [author_A; author_A] in
     (λ r, getattr r "displayOrder")
       <$> filter_eq "publicationId" (getattr created.1 "id") (query Author created.2)
       = [VInt 0; VInt 1]).
Proof.
  split.
  - destruct (create_publication_attaches_authors (engine := Reference.storage)
                empty_session publication_order_2 "u1" [author_A; author_B])
      as (Hnames & _ & _); [apply Forall_nil_2|].
    exact Hnames.
  - destruct (create_publication_attaches_authors (engine := Reference.storage)
                empty_session publication_order_2 "u1" [author_A; author_A])
      as (_ & Horders & _); [apply Forall_nil_2|].
    apply Horders. by repeat constructor.
Defined.

(** X8 on the child area a2 of the root a1. *)
Lemma get_research_areas_by_parent_partitions_example :
  area_child ∈ get_research_areas_by_parent (engine := Reference.storage)
                 site_db (Some "a1")
  ∧ area_child ∉ get_research_areas_by_parent (engine := Reference.storage)
                   site_db None.
Proof.
  destruct (get_research_areas_by_parent_partitions (engine := Reference.storage)
              site_db (Some "a1")) as (_ & _ & Hdisjoint & Hin).
  assert (area_child ∈ get_research_areas_by_parent (engine := Reference.storage)
                         site_db (Some "a1")) as Hchild.
  { apply Hin; [apply list_elem_of_further, list_elem_of_here|].
    vm_compute; reflexivity. }
  split; [exact Hchild|]. by apply Hdisjoint.
Defined.

(** X9 on a new area under a1. *)
Lemma create_research_area_listed_example :
  (create_research_area (engine := Reference.storage) site_db area_under_a1).1
    ∈ get_research_areas_by_parent (engine := Reference.storage)
        (create_research_area (engine := Reference.storage) site_db area_under_a1).2
        (Some "a1").
Proof.
  destruct (create_research_area_listed (engine := Reference.storage)
              site_db area_under_a1 (Some "a1") eq_refl) as (Hin & _).
  exact Hin.
Defined.

(** X10 on a news post and an area created in the example session. *)
Lemma create_then_get_by_id_example :
  (let created := create_news (engine := Reference.storage) site_db news_hello "u1" in
   get_news_by_id created.2 "news-1" = Some created.1
   ∧ get_news_by_id created.2 "n3" = get_news_by_id site_db "n3")
  ∧ (let created := create_research_area (engine := Reference.storage)
                      site_db area_under_a1 in
     get_research_area_by_id created.2 "area-2" = Some created.1).
Proof.
  destruct (create_then_get_by_id (engine := Reference.storage) site_db "news-1")
    as (Hnews & _).
  destruct (create_then_get_by_id (engine := Reference.storage) site_db "area-2")
    as (_ & Harea).
  split.
  - destruct (Hnews news_hello "u1") as (Hget & Hother).
    + unfold id_absent. by_evaluation.
    + vm_compute; reflexivity.
    + split; [exact Hget|]. by apply Hother.
  - destruct (Harea area_under_a1) as (Hget & _).
    + unfold id_absent. by_evaluation.
    + vm_compute; reflexivity.
    + exact Hget.
Defined.

(** X16 on a member whose degree reads "PhD Candidate". *)
Lemma phd_prefix_goes_to_other_example :
  ∃ grouped other phd,
    get_members_by_degree_level (engine := Reference.storage) site_db = Some grouped
    ∧ grouped !! "other" = Some other ∧ candidate ∈ other
    ∧ grouped !! "phd" = Some phd ∧ candidate ∉ phd.
Proof.
  apply (phd_prefix_goes_to_other (engine := Reference.storage) site_db candidate
           " " "candidate").
  - apply list_elem_of_here.
  - by_evaluation.
  - vm_compute; reflexivity.
Defined.
